(** * Bill classification dictionary builder: normalizer, year extractor,
      issue categorizer and record pipeline

    A shallow embedding of [datasources/aclu/build_classification_dict.py].

    Modelling conventions.
    - A Python [str] is a [string] of 8-bit characters; the Python text
      operations ([upper], [lower], [strip], the classes [\d], [\s], [A-Z]
      of [re]) are given their behaviour on ASCII text, and a character
      above code 127 is a caseless symbol that is neither digit nor blank.
    - A cell of the data frame is a [pyval]: a text, [None], or the float
      NaN that [pandas.read_csv] puts in an empty cell.
    - A Python exception is the [Raise] branch of [result].
    - Python integers are unbounded ([Z]); [int] and [str] raise
      [ValueError] beyond the interpreter's default limit of 4300 digits.
    - [pandas] gives a column without any text the type float, on which the
      [.str] accessor raises [AttributeError].
    - Each regular expression of the source is a function written for that
      expression; its unfolding lemmas below state which texts it matches. *)

From Stdlib Require Import ZArith Ascii String Decimal DecimalString DecimalZ Lia.
From stdpp Require Import base option list strings gmap.

Local Open Scope char_scope.
Local Open Scope stdpp_scope.

#[local] Arguments String.append !_ _ : simpl nomatch.

(* ===================================================================== *)
(** ** Characters *)

Module Char.

Definition code (c : ascii) : N := N_of_ascii c.

Definition between (lo hi : N) (c : ascii) : bool :=
  ((lo <=? code c) && (code c <=? hi))%N.

(** [\d] of [re] on ASCII text. *)
Definition is_digit : ascii -> bool := between 48 57.

(** The class [A-Z]. *)
Definition is_AZ : ascii -> bool := between 65 90.

Definition is_az : ascii -> bool := between 97 122.

(** [\s] of [re] and the blanks of [str.strip] (both [str.isspace]):
    tab, line feed, vertical tab, form feed, carriage return, the four
    separators 28..31 and the space. *)
Definition is_space (c : ascii) : bool := between 9 13 c || between 28 32 c.

Definition to_upper (c : ascii) : ascii :=
  if is_az c then ascii_of_N (code c - 32) else c.

Definition to_lower (c : ascii) : ascii :=
  if is_AZ c then ascii_of_N (code c + 32) else c.

Definition LF : ascii := "010".

Definition is_dot (c : ascii) : bool := Ascii.eqb c ".".
Definition is_open (c : ascii) : bool := Ascii.eqb c "(".
Definition is_close (c : ascii) : bool := Ascii.eqb c ")".
Definition is_LF (c : ascii) : bool := Ascii.eqb c LF.
Definition is_zero (c : ascii) : bool := Ascii.eqb c "0".

End Char.

(* ===================================================================== *)
(** ** Texts *)

Module Str.

Fixpoint map (f : ascii -> ascii) (s : string) : string :=
  match s with
  | EmptyString => EmptyString
  | String c t => String (f c) (map f t)
  end.

(** Keeps the characters on which [keep] holds. *)
Fixpoint filter (keep : ascii -> bool) (s : string) : string :=
  match s with
  | EmptyString => EmptyString
  | String c t => if keep c then String c (filter keep t) else filter keep t
  end.

Fixpoint all (p : ascii -> bool) (s : string) : bool :=
  match s with
  | EmptyString => true
  | String c t => p c && all p t
  end.

Definition none (p : ascii -> bool) : string -> bool :=
  all (fun c => negb (p c)).

Fixpoint take_while (p : ascii -> bool) (s : string) : string :=
  match s with
  | EmptyString => EmptyString
  | String c t => if p c then String c (take_while p t) else EmptyString
  end.

Fixpoint drop_while (p : ascii -> bool) (s : string) : string :=
  match s with
  | EmptyString => EmptyString
  | String c t => if p c then drop_while p t else s
  end.

Definition is_empty (s : string) : bool :=
  match s with EmptyString => true | _ => false end.

(** [s[:n]]: the first [n] characters, or all of [s] when it is shorter. *)
Fixpoint take (n : nat) (s : string) : string :=
  match n, s with
  | S k, String c t => String c (take k t)
  | _, _ => EmptyString
  end.

Fixpoint drop (n : nat) (s : string) : string :=
  match n, s with
  | S k, String _ t => drop k t
  | _, _ => s
  end.

(** [k in s]: [k] occurs in [s] as a contiguous piece. *)
Fixpoint contains (k s : string) : bool :=
  String.prefix k s ||
  match s with
  | EmptyString => false
  | String _ t => contains k t
  end.

(** [str.upper] and [str.lower], exact on ASCII text.  Beyond ASCII
    Python's [upper] also changes letters and can lengthen a text; a
    statement that depends on this carries the hypothesis that the text is
    ASCII. *)
Definition upper : string -> string := map Char.to_upper.
Definition lower : string -> string := map Char.to_lower.

(** [str.strip]: blanks are dropped from both ends. *)
Definition lstrip : string -> string := drop_while Char.is_space.

Fixpoint rstrip (s : string) : string :=
  match s with
  | EmptyString => EmptyString
  | String c t =>
      match rstrip t with
      | EmptyString => if Char.is_space c then EmptyString else String c EmptyString
      | r => String c r
      end
  end.

Definition strip (s : string) : string := rstrip (lstrip s).

End Str.

(* ===================================================================== *)
(** ** Python values, exceptions, integers *)

Inductive exn : Set := ValueError | TypeError | AttributeError.

Inductive result (A : Type) : Type :=
| Ok (a : A)
| Raise (e : exn).
Arguments Ok {A} a.
Arguments Raise {A} e.

Definition bind {A B} (r : result A) (k : A -> result B) : result B :=
  match r with
  | Ok a => k a
  | Raise e => Raise e
  end.

Notation "x <- r ;; k" := (bind r (fun x => k))
  (at level 100, r at next level, right associativity).

(** A cell: [None], NaN or a text. *)
Inductive pyval : Type :=
| PyNone
| PyNaN
| PyStr (s : string).

(** [pd.isna] on a cell. *)
Definition isna (v : pyval) : bool :=
  match v with
  | PyStr _ => false
  | PyNone | PyNaN => true
  end.

(** The interpreter's default limit on the digits of a conversion between
    text and integer ([sys.int_info.default_max_str_digits]). *)
Definition INT_MAX_STR_DIGITS : nat := 4300.

Definition within_cap (digits : string) : bool :=
  (String.length digits <=? INT_MAX_STR_DIGITS)%nat.

(** The number that a run of decimal digits writes (0 on any other text). *)
Definition int_value (ds : string) : Z :=
  match NilZero.uint_of_string ds with
  | Some d => Z.of_uint d
  | None => 0%Z
  end.

(** The decimal numeral of an integer. *)
Definition decimal (n : Z) : string := NilZero.string_of_int (Z.to_int n).

(** [int(s)] for the texts this program passes to it: a text of decimal
    digits gives its value, unless it has more digits than the limit; that
    text, the empty text and a text with another character raise
    [ValueError].  Leading zeros count as digits.  (Python's [int] also
    reads signs, surrounding blanks and underscores; the program only ever
    passes what [\d+] or [\d{4}] matched.) *)
Definition py_int (s : string) : result Z :=
  match NilZero.uint_of_string s with
  | Some d => if within_cap s then Ok (Z.of_uint d) else Raise ValueError
  | None => Raise ValueError
  end.

(** [str(n)], as the f-string [f"...{n}"] formats an integer: its decimal
    numeral, or [ValueError] when that has more digits than the limit. *)
Definition py_str (n : Z) : result string :=
  if within_cap (decimal (Z.abs n)) then Ok (decimal n) else Raise ValueError.

(* ===================================================================== *)
(** ** The regular expressions of the source *)

Module Re.

(** [re.match(r'L\.D\.?\s*(\d+)', s)]: group 1 on a match. *)
Definition maine_match (s : string) : option string :=
  match s with
  | String a (String b (String c t)) =>
      if Ascii.eqb a "L" && Char.is_dot b && Ascii.eqb c "D" then
        let t1 :=
          match t with
          | String d u => if Char.is_dot d then u else t
          | EmptyString => t
          end in
        let ds := Str.take_while Char.is_digit (Str.drop_while Char.is_space t1) in
        if Str.is_empty ds then None else Some ds
      else None
  | _ => None
  end.

(** Is the next [)] reached before a line feed and before the end?  This
    is whether the lazy [.*?\)] can match from here, [.] standing for
    every character but the line feed. *)
Fixpoint closes (s : string) : bool :=
  match s with
  | EmptyString => false
  | String c t =>
      if Char.is_close c then true
      else if Char.is_LF c then false
      else closes t
  end.

(** [re.sub(r'\(.*?\)', '', s)], read from left to right.  With
    [inside = true] the scan is within a match and drops characters through
    the closing parenthesis; otherwise an opening parenthesis starts a match
    when [closes] holds of what follows, and every other character is kept. *)
Fixpoint sub_parens_from (inside : bool) (s : string) : string :=
  match s with
  | EmptyString => EmptyString
  | String c t =>
      if inside then
        sub_parens_from (negb (Char.is_close c)) t
      else if Char.is_open c && closes t then
        sub_parens_from true t
      else
        String c (sub_parens_from false t)
  end.

Definition sub_parens : string -> string := sub_parens_from false.

(** [re.sub(r'\.', '', s)]. *)
Definition sub_dots : string -> string :=
  Str.filter (fun c => negb (Char.is_dot c)).

(** [re.sub(r'\s+', '', s)]. *)
Definition sub_spaces : string -> string :=
  Str.filter (fun c => negb (Char.is_space c)).

(** What [0*(\d+)] leaves in its group on a run of digits: the greedy [0*]
    takes every leading zero but gives the last one back when the run has
    nothing else. *)
Fixpoint drop_zeros (ds : string) : string :=
  match ds with
  | String c (String _ _ as t) => if Char.is_zero c then drop_zeros t else ds
  | _ => ds
  end.

(** [re.match(r'([A-Z]+)0*(\d+)', s)]: the two groups on a match. *)
Definition bill_match (s : string) : option (string * string) :=
  let prefix := Str.take_while Char.is_AZ s in
  let ds := Str.take_while Char.is_digit (Str.drop_while Char.is_AZ s) in
  if Str.is_empty prefix || Str.is_empty ds then None
  else Some (prefix, drop_zeros ds).

(** [re.search(r'(\d{4})', s)]: group 1 of the leftmost match. *)
Fixpoint search_year (s : string) : option string :=
  match s with
  | EmptyString => None
  | String c t =>
      let w := Str.take 4 s in
      if (String.length w =? 4)%nat && Str.all Char.is_digit w then Some w
      else search_year t
  end.

End Re.

(* ===================================================================== *)
(** ** The per-row functions *)

(** The general normalization up to the leading-zero step. *)
Definition clean (s : string) : string :=
  Re.sub_spaces (Re.sub_dots (Re.sub_parens (Str.upper s))).

Definition normalize_bill_number (bill_name : pyval) : result pyval :=
  match bill_name with
  | PyNone | PyNaN => Ok PyNone
  | PyStr s =>
      match Re.maine_match s with
      | Some ds =>
          n <- py_int ds ;;
          number <- py_str n ;;
          Ok (PyStr ("LD" +:+ number))
      | None =>
          let normalized := clean s in
          let normalized :=
            match Re.bill_match normalized with
            | Some (prefix, number) => prefix +:+ number
            | None => normalized
            end in
          Ok (PyStr (Str.strip normalized))
      end
  end.

Definition FALLBACK_YEAR : Z := 2025.

Definition extract_year (status_date : pyval) : result Z :=
  match status_date with
  | PyNone | PyNaN => Ok FALLBACK_YEAR
  | PyStr s =>
      match Re.search_year s with
      | Some w => py_int w
      | None => Ok FALLBACK_YEAR
      end
  end.

(** Adds [c] to the set when the test [b] holds. *)
Definition add_if (b : bool) (c : string) (categories : gset string) : gset string :=
  if b then {[ c ]} ∪ categories else categories.

(** [any(x in text for x in keys)]. *)
Definition any_in (keys : list string) (text : string) : bool :=
  existsb (fun x => Str.contains x text) keys.

(** The returned list enumerates a Python [set], whose order the language
    leaves open; the model returns the set itself. *)
Definition categorize_issues (issues_str : pyval) : result (gset string) :=
  match issues_str with
  | PyNone | PyNaN => Ok {[ "other" ]}
  | PyStr s =>
      let issues_lower := Str.lower s in
      let categories : gset string := ∅ in
      let categories :=
        add_if (any_in ["healthcare"; "medical"] issues_lower) "healthcare" categories in
      let categories :=
        add_if (any_in ["school"; "student"; "educator"] issues_lower) "education" categories in
      let categories :=
        add_if (Str.contains "sports" issues_lower) "sports" categories in
      let categories :=
        add_if (Str.contains "facilities" issues_lower || Str.contains "bathroom" issues_lower)
               "facilities" categories in
      let categories :=
        add_if (Str.contains "religious" issues_lower) "religious_exemption" categories in
      let categories :=
        add_if (any_in ["curriculum"; "outing"; "don't say"] issues_lower)
               "schools_speech" categories in
      let categories :=
        add_if (any_in ["id"; "definition of sex"; "re-definition"] issues_lower)
               "identity_documents" categories in
      let categories :=
        add_if (any_in ["drag"; "expression"] issues_lower) "expression" categories in
      let categories :=
        add_if (Str.contains "accommodation" issues_lower) "public_accommodations" categories in
      Ok (if decide (categories = ∅) then {[ "other" ]} else categories)
  end.

(* ===================================================================== *)
(** ** The state table *)

Definition STATE_ABBREV_items : list (string * string) :=
  [ ("Alabama", "AL"); ("Alaska", "AK"); ("Arizona", "AZ"); ("Arkansas", "AR");
    ("California", "CA"); ("Colorado", "CO"); ("Connecticut", "CT"); ("Delaware", "DE");
    ("Florida", "FL"); ("Georgia", "GA"); ("Hawaii", "HI"); ("Idaho", "ID");
    ("Illinois", "IL"); ("Indiana", "IN"); ("Iowa", "IA"); ("Kansas", "KS");
    ("Kentucky", "KY"); ("Louisiana", "LA"); ("Maine", "ME"); ("Maryland", "MD");
    ("Massachusetts", "MA"); ("Michigan", "MI"); ("Minnesota", "MN"); ("Mississippi", "MS");
    ("Missouri", "MO"); ("Montana", "MT"); ("Nebraska", "NE"); ("Nevada", "NV");
    ("New Hampshire", "NH"); ("New Jersey", "NJ"); ("New Mexico", "NM"); ("New York", "NY");
    ("North Carolina", "NC"); ("North Dakota", "ND"); ("Ohio", "OH"); ("Oklahoma", "OK");
    ("Oregon", "OR"); ("Pennsylvania", "PA"); ("Rhode Island", "RI"); ("South Carolina", "SC");
    ("South Dakota", "SD"); ("Tennessee", "TN"); ("Texas", "TX"); ("Utah", "UT");
    ("Vermont", "VT"); ("Virginia", "VA"); ("Washington", "WA"); ("West Virginia", "WV");
    ("Wisconsin", "WI"); ("Wyoming", "WY"); ("District of Columbia", "DC") ].

Definition STATE_ABBREV : gmap string string := list_to_map STATE_ABBREV_items.

(** [STATE_ABBREV.get(state, state[:2].upper())].  Python evaluates the
    default before the lookup, so a cell that is not a text raises
    [TypeError] at the slice. *)
Definition state_abbrev (state : pyval) : result string :=
  match state with
  | PyStr s =>
      let fallback := Str.upper (Str.take 2 s) in
      Ok (default fallback (STATE_ABBREV !! s))
  | PyNone | PyNaN => Raise TypeError
  end.

(* ===================================================================== *)
(** ** Rows, records and the pipeline *)

Record row : Type := Row {
  State : pyval;
  Bill_Name : pyval;
  Status : pyval;
  Status_Detail : pyval;
  Status_Date : pyval;
  Issues : pyval
}.

Record record : Type := Record_ {
  state : string;
  bill_number : pyval;
  year : Z;
  state_full : pyval;
  bill_number_raw : pyval;
  status : pyval;
  status_detail : pyval;
  issues_raw : pyval;
  issue_categories : gset string;
  label : string;
  source : string;
  legiscan_bill_id : pyval;
  legiscan_text_url : pyval
}.

(** The footer filter:
    [df['State'].notna() & ~df['State'].str.contains('Data is current', na=False)]. *)
Definition keep_row (r : row) : bool :=
  match State r with
  | PyStr s => negb (Str.contains "Data is current" s)
  | PyNone | PyNaN => false
  end.

(** The body of the loop over the rows. *)
Definition build_record (r : row) : result record :=
  let bill_raw := Bill_Name r in
  bill_normalized <- normalize_bill_number bill_raw ;;
  state_abbrev <- state_abbrev (State r) ;;
  year <- extract_year (Status_Date r) ;;
  issue_categories <- categorize_issues (Issues r) ;;
  Ok {| state := state_abbrev;
        bill_number := bill_normalized;
        year := year;
        state_full := State r;
        bill_number_raw := bill_raw;
        status := Status r;
        status_detail := Status_Detail r;
        issues_raw := Issues r;
        issue_categories := issue_categories;
        label := "harmful";
        source := "aclu_tracker";
        legiscan_bill_id := PyNone;
        legiscan_text_url := PyNone |}.

(** The loop: [records] is the list built so far, each record is appended. *)
Fixpoint build_records (records : list record) (rows : list row)
  : result (list record) :=
  match rows with
  | [] => Ok records
  | r :: rest =>
      rec <- build_record r ;;
      build_records (records ++ [rec]) rest
  end.

Definition is_nan (v : pyval) : bool :=
  match v with
  | PyNaN => true
  | PyNone | PyStr _ => false
  end.

(** A column in which [read_csv] found no text: the frame has rows and
    every cell of the column is NaN.  Such a column has the type float. *)
Definition float_column (column : row -> pyval) (df : list row) : bool :=
  match df with
  | [] => false
  | _ :: _ => forallb (fun r => is_nan (column r)) df
  end.

(** [build_classification_dict] from the loaded frame to the list of
    records handed to the writer.  The footer filter reads [df['State'].str],
    which raises [AttributeError] on a float column. *)
Definition build_classification_dict (df : list row) : result (list record) :=
  if float_column State df then Raise AttributeError
  else
    let df := List.filter keep_row df in
    build_records [] df.

(* ===================================================================== *)
(** ** Predicates used in the statements *)

(** No opening parenthesis has a closing one anywhere to its right. *)
Fixpoint pairfree (s : string) : bool :=
  match s with
  | EmptyString => true
  | String c t => (negb (Char.is_open c) || Str.none Char.is_close t) && pairfree t
  end.

(** A text on which the four cleaning steps change nothing. *)
Definition settled (s : string) : Prop :=
  Str.upper s = s /\ pairfree s = true /\
  Str.none Char.is_dot s = true /\ Str.none Char.is_space s = true.

(** The canonical form: capital letters, then digits without a leading
    zero (a lone zero apart). *)
Definition canonical (s : string) : Prop :=
  exists letters digits,
    s = letters +:+ digits /\
    letters <> "" /\ Str.all Char.is_AZ letters = true /\
    digits <> "" /\ Str.all Char.is_digit digits = true /\
    Re.drop_zeros digits = digits.

(** The first character, if there is one, is not a digit. *)
Definition no_digit_first (s : string) : bool :=
  match s with
  | EmptyString => true
  | String c _ => negb (Char.is_digit c)
  end.

(** The text begins with capital letters followed by a digit: what
    [([A-Z]+)0*(\d+)] matches at the start. *)
Definition letters_then_digits (s : string) : Prop :=
  exists letters digits rest,
    s = letters +:+ digits +:+ rest /\
    letters <> "" /\ Str.all Char.is_AZ letters = true /\
    digits <> "" /\ Str.all Char.is_digit digits = true.

(** What the normalizer returns on a cleaned text. *)
Definition finish (s : string) : string :=
  match Re.bill_match s with
  | Some (prefix, number) => prefix +:+ number
  | None => s
  end.

(** [normalize(normalize(x))]: the second call runs on the result of the
    first, an exception of the first is passed on. *)
Definition normalize_twice (x : pyval) : result pyval :=
  y <- normalize_bill_number x ;; normalize_bill_number y.

(** A parenthetical broken over two lines: an opening parenthesis, a line
    feed, a closing parenthesis. *)
Definition two_line_parenthetical : string :=
  String "(" (String Char.LF (String ")" "")).

(** [n] copies of the character [c]. *)
Fixpoint repeat_char (n : nat) (c : ascii) : string :=
  match n with
  | O => EmptyString
  | S k => String c (repeat_char k c)
  end.

(** A bill name in the form of the special case whose number has one digit
    more than the limit. *)
Definition long_maine_bill : string :=
  "L.D. " +:+ repeat_char (S INT_MAX_STR_DIGITS) "1".

(** The run of digits that the special pattern reads in the text, if it
    matches, is within the limit. *)
Definition special_run_within_cap (s : string) : bool :=
  match Re.maine_match s with
  | Some ds => within_cap ds
  | None => true
  end.

Definition bill_within_cap (bill_name : pyval) : bool :=
  match bill_name with
  | PyStr s => special_run_within_cap s
  | PyNone | PyNaN => true
  end.

(** The frames on which the pipeline returns: the State column is not a
    float column, and the bill name of every row that passes the footer
    filter is within the limit. *)
Definition frame_accepted (df : list row) : bool :=
  negb (float_column State df) &&
  forallb (fun r => negb (keep_row r) || bill_within_cap (Bill_Name r)) df.


(** A frame of two bills, one without a bill name, and the footer row. *)
Definition sample_frame : list row :=
  [ Row (PyStr "Ohio") (PyStr "H.B. 0012 (S.B. 3)") (PyStr "Introduced") PyNaN
        (PyStr "01/02/2025") (PyStr "School Sports");
    Row (PyStr "Maine") PyNaN (PyStr "Passed") (PyStr "Signed")
        PyNaN PyNaN;
    Row (PyStr "Data is current as of 01/19/2026") PyNaN PyNaN PyNaN PyNaN
        PyNaN ].


(** The character is in the ASCII range. *)
Definition is_ascii (c : ascii) : bool := (Char.code c <? 128)%N.

(** Four digits stand at offset [i] of the text. *)
Definition four_digits_at (i : nat) (s : string) : bool :=
  let w := Str.take 4 (Str.drop i s) in
  (String.length w =? 4)%nat && Str.all Char.is_digit w.

(** The runs of a text: its maximal blocks of consecutive digits, from left
    to right; [cur] is the block being read. *)
Fixpoint digit_runs_from (cur : string) (s : string) : list string :=
  let close := if Str.is_empty cur then [] else [cur] in
  match s with
  | EmptyString => close
  | String c t =>
      if Char.is_digit c then digit_runs_from (cur +:+ String c "") t
      else close ++ digit_runs_from "" t
  end.

Definition digit_runs : string -> list string := digit_runs_from "".

(** The keyword groups of the specification's glossary, each with its
    category. *)
Definition keyword_groups : list (list string * string) :=
  [ (["healthcare"; "medical"], "healthcare");
    (["school"; "student"; "educator"], "education");
    (["sports"], "sports");
    (["facilities"; "bathroom"], "facilities");
    (["religious"], "religious_exemption");
    (["curriculum"; "outing"; "don't say"], "schools_speech");
    (["id"; "definition of sex"; "re-definition"], "identity_documents");
    (["drag"; "expression"], "expression");
    (["accommodation"], "public_accommodations") ].

(** One test of the source, for one keyword group. *)
Definition step (text : string) (categories : gset string)
  (group : list string * string) : gset string :=
  add_if (any_in group.1 text) group.2 categories.

(** Category [c] has a group with a keyword contained in [text]. *)
Definition matched (text c : string) : Prop :=
  exists keys, In (keys, c) keyword_groups /\
               exists k, In k keys /\ Str.contains k text = true.

(** The fifty states of the United States. *)
Definition US_STATES : list string :=
  [ "Alabama"; "Alaska"; "Arizona"; "Arkansas"; "California"; "Colorado";
    "Connecticut"; "Delaware"; "Florida"; "Georgia"; "Hawaii"; "Idaho";
    "Illinois"; "Indiana"; "Iowa"; "Kansas"; "Kentucky"; "Louisiana";
    "Maine"; "Maryland"; "Massachusetts"; "Michigan"; "Minnesota";
    "Mississippi"; "Missouri"; "Montana"; "Nebraska"; "Nevada";
    "New Hampshire"; "New Jersey"; "New Mexico"; "New York";
    "North Carolina"; "North Dakota"; "Ohio"; "Oklahoma"; "Oregon";
    "Pennsylvania"; "Rhode Island"; "South Carolina"; "South Dakota";
    "Tennessee"; "Texas"; "Utah"; "Vermont"; "Virginia"; "Washington";
    "West Virginia"; "Wisconsin"; "Wyoming" ].

(** Record [rec] is the one built from row [r]. *)
Definition built_from (r : row) (rec : record) : Prop :=
  build_record r = Ok rec.


(** No opening parenthesis can start a match of [\(.*?\)]: what follows
    it meets a line feed or the end before any closing parenthesis. *)
Fixpoint unclosed (s : string) : bool :=
  match s with
  | EmptyString => true
  | String c t => (negb (Char.is_open c) || negb (Re.closes t)) && unclosed t
  end.

(** The labels the categorizer can return. *)
Definition CATEGORY_LABELS : list string :=
  [ "healthcare"; "education"; "sports"; "facilities"; "religious_exemption";
    "schools_speech"; "identity_documents"; "expression";
    "public_accommodations"; "other" ].

(** What holds of each record the pipeline emits: the state name is a text
    without the footer marker, the normalized bill number is missing
    exactly when the raw one is, the year has at most four digits, and
    there is at least one category. *)
Definition record_ok (rec : record) : Prop :=
  (exists s, state_full rec = PyStr s /\
             Str.contains "Data is current" s = false) /\
  isna (bill_number rec) = isna (bill_number_raw rec) /\
  (0 <= year rec <= 9999)%Z /\
  issue_categories rec <> ∅.

(* ===================================================================== *)
(** ** Characters: facts *)

Module CharFacts.
Import Char.

Ltac by_cases_of c :=
  destruct c as [[|] [|] [|] [|] [|] [|] [|] [|]];
  vm_compute; repeat split; congruence.

Lemma to_upper_idem c : to_upper (to_upper c) = to_upper c.
Proof. by_cases_of c. Qed.

Lemma digit_plain c :
  is_digit c = true ->
  to_upper c = c /\ is_AZ c = false /\ is_space c = false /\
  is_dot c = false /\ is_open c = false /\ is_close c = false.
Proof. by_cases_of c. Qed.

Lemma AZ_plain c :
  is_AZ c = true ->
  to_upper c = c /\ is_digit c = false /\ is_space c = false /\
  is_dot c = false /\ is_open c = false /\ is_close c = false.
Proof. by_cases_of c. Qed.

Lemma space_plain c :
  is_space c = true ->
  to_upper c = c /\ is_digit c = false /\ is_dot c = false /\
  is_open c = false.
Proof. by_cases_of c. Qed.

Lemma LF_upper c : is_LF (to_upper c) = is_LF c.
Proof. by_cases_of c. Qed.

Lemma dot_eq c : is_dot c = true -> c = "."%char.
Proof. unfold is_dot. apply Ascii.eqb_eq. Qed.

End CharFacts.

(* ===================================================================== *)
(** ** Texts: facts *)

Module StrFacts.
Import Str.

Lemma append_empty_r s : s +:+ "" = s.
Proof. induction s as [|c t IH]; simpl; [reflexivity | now rewrite IH]. Qed.

Lemma append_assoc a b c : (a +:+ b) +:+ c = a +:+ (b +:+ c).
Proof. induction a as [|x a IH]; simpl; [reflexivity | now rewrite IH]. Qed.

Lemma all_app p a b : all p (a +:+ b) = all p a && all p b.
Proof.
  induction a as [|c t IH]; simpl; [reflexivity|].
  rewrite IH. now rewrite andb_assoc.
Qed.

Lemma all_impl (p q : ascii -> bool) s :
  (forall c, p c = true -> q c = true) -> all p s = true -> all q s = true.
Proof.
  intros Hpq. induction s as [|c t IH]; simpl; [reflexivity|].
  rewrite !andb_true_iff. intros [Hc Ht]. split; auto.
Qed.

Lemma map_fixed f s :
  all (fun c => Ascii.eqb (f c) c) s = true -> map f s = s.
Proof.
  induction s as [|c t IH]; simpl; [reflexivity|].
  rewrite andb_true_iff. intros [Hc Ht].
  apply Ascii.eqb_eq in Hc. now rewrite Hc, IH.
Qed.

Lemma map_idem f s :
  (forall c, f (f c) = f c) -> all (fun c => Ascii.eqb (f c) c) (map f s) = true.
Proof.
  intros Hf. induction s as [|c t IH]; simpl; [reflexivity|].
  rewrite IH, andb_true_r. apply Ascii.eqb_eq, Hf.
Qed.

Lemma all_map p f s :
  (forall c, p (f c) = p c) -> all p (map f s) = all p s.
Proof.
  intros Hf. induction s as [|c t IH]; simpl; [reflexivity|].
  now rewrite Hf, IH.
Qed.

Lemma filter_fixed q s : all q s = true -> filter q s = s.
Proof.
  induction s as [|c t IH]; simpl; [reflexivity|].
  rewrite andb_true_iff. intros [Hc Ht]. now rewrite Hc, IH.
Qed.

Lemma all_filter p q s : all p s = true -> all p (filter q s) = true.
Proof.
  induction s as [|c t IH]; simpl; [reflexivity|].
  rewrite andb_true_iff. intros [Hc Ht].
  destruct (q c); simpl; [rewrite Hc|]; auto.
Qed.

Lemma all_filter_self q s : all q (filter q s) = true.
Proof.
  induction s as [|c t IH]; simpl; [reflexivity|].
  destruct (q c) eqn:Hc; simpl; [rewrite Hc|]; auto.
Qed.

Lemma take_while_all p s : all p (take_while p s) = true.
Proof.
  induction s as [|c t IH]; simpl; [reflexivity|].
  destruct (p c) eqn:Hc; simpl; [rewrite Hc|]; auto.
Qed.

Lemma take_drop_while p s : take_while p s +:+ drop_while p s = s.
Proof.
  induction s as [|c t IH]; simpl; [reflexivity|].
  destruct (p c); simpl; [now rewrite IH | reflexivity].
Qed.

Lemma take_while_app p a b :
  all p a = true -> take_while p (a +:+ b) = a +:+ take_while p b.
Proof.
  induction a as [|c t IH]; simpl; [reflexivity|].
  rewrite andb_true_iff. intros [Hc Ht]. now rewrite Hc, IH.
Qed.

Lemma drop_while_app p a b :
  all p a = true -> drop_while p (a +:+ b) = drop_while p b.
Proof.
  induction a as [|c t IH]; simpl; [reflexivity|].
  rewrite andb_true_iff. intros [Hc Ht]. now rewrite Hc, IH.
Qed.

Lemma take_while_none p s : none p s = true -> take_while p s = "".
Proof.
  destruct s as [|c t]; simpl; [reflexivity|].
  unfold none; simpl. rewrite andb_true_iff. intros [Hc _].
  apply negb_true_iff in Hc. now rewrite Hc.
Qed.

Lemma rstrip_fixed s : none Char.is_space s = true -> rstrip s = s.
Proof.
  unfold none. induction s as [|c t IH]; simpl; [reflexivity|].
  rewrite andb_true_iff. intros [Hc Ht].
  rewrite (IH Ht). apply negb_true_iff in Hc. rewrite Hc.
  now destruct t.
Qed.

Lemma lstrip_fixed s : none Char.is_space s = true -> lstrip s = s.
Proof.
  unfold none, lstrip. destruct s as [|c t]; simpl; [reflexivity|].
  rewrite andb_true_iff. intros [Hc _].
  apply negb_true_iff in Hc. now rewrite Hc.
Qed.

Lemma strip_fixed s : none Char.is_space s = true -> strip s = s.
Proof.
  intros H. unfold strip. rewrite (lstrip_fixed _ H). now apply rstrip_fixed.
Qed.

End StrFacts.

(* ===================================================================== *)
(** ** The regular expressions: facts *)

Module ReFacts.
Import Char Str Re CharFacts StrFacts.

(** *** Removal of parentheticals *)

(** A match [(body)] is dropped whole and the scan resumes behind it. *)
Lemma sub_parens_inside body rest :
  none is_close body = true ->
  sub_parens_from true (body +:+ String ")" rest) = sub_parens rest.
Proof.
  unfold none. induction body as [|c t IH]; simpl; [reflexivity|].
  rewrite andb_true_iff. intros [Hc Ht]. rewrite Hc. now apply IH.
Qed.

Lemma closes_body body rest :
  none is_close body = true -> none is_LF body = true ->
  closes (body +:+ String ")" rest) = true.
Proof.
  unfold none. induction body as [|c t IH]; simpl; [reflexivity|].
  rewrite !andb_true_iff. intros [Hc Ht] [Hn Hnt].
  apply negb_true_iff in Hc, Hn. rewrite Hc, Hn. now apply IH.
Qed.

Lemma sub_parens_match body rest :
  none is_close body = true -> none is_LF body = true ->
  sub_parens (String "(" (body +:+ String ")" rest)) = sub_parens rest.
Proof.
  intros Hc Hn. unfold sub_parens at 1. simpl.
  rewrite (closes_body _ _ Hc Hn). simpl. now apply sub_parens_inside.
Qed.

Lemma sub_parens_keep c t :
  is_open c && closes t = false ->
  sub_parens (String c t) = String c (sub_parens t).
Proof. intros H. unfold sub_parens. simpl. now rewrite H. Qed.

(** The output is made of characters of the input. *)
Lemma all_sub_parens_from p b s :
  all p s = true -> all p (sub_parens_from b s) = true.
Proof.
  revert b. induction s as [|c t IH]; intros b; simpl; [reflexivity|].
  rewrite andb_true_iff. intros [Hc Ht].
  destruct b; [now apply IH|].
  destruct (is_open c && closes t); [now apply IH|].
  simpl. rewrite Hc. now apply IH.
Qed.

Lemma closes_false_none s :
  none is_LF s = true -> closes s = false -> none is_close s = true.
Proof.
  unfold none. induction s as [|c t IH]; simpl; [reflexivity|].
  rewrite andb_true_iff. intros [Hn Ht].
  apply negb_true_iff in Hn. rewrite Hn.
  destruct (is_close c); [discriminate|]. simpl. now apply IH.
Qed.

Lemma none_close_closes s : none is_close s = true -> closes s = false.
Proof.
  unfold none. induction s as [|c t IH]; simpl; [reflexivity|].
  rewrite andb_true_iff. intros [Hc Ht].
  apply negb_true_iff in Hc. rewrite Hc.
  destruct (is_LF c); [reflexivity | now apply IH].
Qed.

(** On a text without line feed no pair of parentheses is left. *)
Lemma pairfree_sub_parens_from b s :
  none is_LF s = true -> pairfree (sub_parens_from b s) = true.
Proof.
  revert b. induction s as [|c t IH]; intros b; simpl; [reflexivity|].
  intros Hn. unfold none in Hn. simpl in Hn.
  apply andb_true_iff in Hn as [Hc Ht].
  destruct b; [now apply IH|].
  destruct (is_open c) eqn:Ho; simpl.
  - destruct (closes t) eqn:Hcl; [now apply IH|].
    simpl. rewrite Ho. simpl. rewrite (IH false Ht), andb_true_r.
    apply all_sub_parens_from. now apply closes_false_none.
  - rewrite Ho. simpl. now apply IH.
Qed.

Lemma pairfree_fixed s : pairfree s = true -> sub_parens s = s.
Proof.
  unfold sub_parens. induction s as [|c t IH]; simpl; [reflexivity|].
  rewrite andb_true_iff. intros [Hc Ht].
  destruct (is_open c); simpl in *.
  - rewrite (none_close_closes _ Hc). now rewrite (IH Ht).
  - now rewrite (IH Ht).
Qed.

Lemma pairfree_filter q s : pairfree s = true -> pairfree (filter q s) = true.
Proof.
  induction s as [|c t IH]; simpl; [reflexivity|].
  rewrite andb_true_iff. intros [Hc Ht].
  destruct (q c); simpl; [|now apply IH].
  rewrite (IH Ht), andb_true_r.
  apply orb_true_iff in Hc as [Hc|Hc]; [now rewrite Hc|].
  apply orb_true_iff. right. now apply all_filter.
Qed.

Lemma none_open_pairfree s : none is_open s = true -> pairfree s = true.
Proof.
  unfold none. induction s as [|c t IH]; simpl; [reflexivity|].
  rewrite andb_true_iff. intros [Hc Ht]. rewrite Hc. simpl. now apply IH.
Qed.

(** *** Leading zeros *)

Lemma drop_zeros_drop_while ds :
  drop_zeros ds =
  match drop_while is_zero ds with
  | EmptyString => if is_empty ds then "" else "0"
  | r => r
  end.
Proof.
  induction ds as [|c t IH]; [reflexivity|].
  destruct t as [|c' t'].
  - simpl. destruct (is_zero c) eqn:Hz; [|reflexivity].
    apply Ascii.eqb_eq in Hz. now subst c.
  - change (drop_zeros (String c (String c' t')))
      with (if is_zero c then drop_zeros (String c' t') else String c (String c' t')).
    change (drop_while is_zero (String c (String c' t')))
      with (if is_zero c then drop_while is_zero (String c' t') else String c (String c' t')).
    destruct (is_zero c); [|reflexivity].
    rewrite IH. reflexivity.
Qed.

Lemma drop_zeros_idem ds : drop_zeros (drop_zeros ds) = drop_zeros ds.
Proof.
  induction ds as [|c t IH]; [reflexivity|].
  destruct t as [|c' t']; [reflexivity|].
  change (drop_zeros (String c (String c' t')))
    with (if is_zero c then drop_zeros (String c' t') else String c (String c' t')).
  destruct (is_zero c) eqn:Hz; [exact IH|].
  simpl. now rewrite Hz.
Qed.

Lemma drop_zeros_nonempty ds : ds <> "" -> drop_zeros ds <> "".
Proof.
  induction ds as [|c t IH]; [congruence|]. intros _.
  destruct t as [|c' t']; [simpl; congruence|].
  change (drop_zeros (String c (String c' t')))
    with (if is_zero c then drop_zeros (String c' t') else String c (String c' t')).
  destruct (is_zero c); [apply IH|]; congruence.
Qed.

Lemma drop_zeros_all p ds : all p ds = true -> all p (drop_zeros ds) = true.
Proof.
  induction ds as [|c t IH]; [reflexivity|].
  destruct t as [|c' t']; [trivial|].
  change (drop_zeros (String c (String c' t')))
    with (if is_zero c then drop_zeros (String c' t') else String c (String c' t')).
  intros H. destruct (is_zero c); [|exact H].
  apply IH. change (p c && all p (String c' t') = true) in H.
  now apply andb_true_iff in H as [_ H].
Qed.

End ReFacts.

(* ===================================================================== *)
(** ** Integers: [int] and [str] on a run of digits *)

Module IntFacts.
Import Char Str Re StrFacts ReFacts.

Lemma uint_of_digits ds :
  all is_digit ds = true -> exists d, NilEmpty.uint_of_string ds = Some d.
Proof.
  induction ds as [|c t IH]; simpl; [eauto|].
  rewrite andb_true_iff. intros [Hc Ht].
  destruct (IH Ht) as [d ->].
  destruct c as [[|] [|] [|] [|] [|] [|] [|] [|]];
    try discriminate Hc; simpl; eauto.
Qed.

Lemma string_of_nzhead d :
  NilEmpty.string_of_uint (nzhead d) =
  drop_while is_zero (NilEmpty.string_of_uint d).
Proof. induction d; simpl; auto. Qed.

Lemma string_of_uint_empty d : NilEmpty.string_of_uint d = "" -> d = Nil.
Proof. destruct d; simpl; congruence. Qed.

Lemma string_of_unorm d :
  d <> Nil ->
  NilZero.string_of_uint (unorm d) = drop_zeros (NilEmpty.string_of_uint d).
Proof.
  intros Hd. rewrite drop_zeros_drop_while, <- string_of_nzhead.
  unfold unorm. destruct (nzhead d) eqn:Hz; simpl; try reflexivity.
  destruct d; simpl; congruence.
Qed.

Lemma length_drop_zeros ds :
  (String.length (drop_zeros ds) <= String.length ds)%nat.
Proof.
  induction ds as [|c t IH]; [reflexivity|].
  destruct t as [|c' t']; [reflexivity|].
  change (drop_zeros (String c (String c' t')))
    with (if is_zero c then drop_zeros (String c' t') else String c (String c' t')).
  destruct (is_zero c); [|reflexivity].
  change (String.length (String c (String c' t')))
    with (S (String.length (String c' t'))). lia.
Qed.

Lemma int_value_nonneg ds : (0 <= int_value ds)%Z.
Proof.
  unfold int_value. destruct (NilZero.uint_of_string ds); [|reflexivity].
  unfold Z.of_uint. apply N2Z.is_nonneg.
Qed.

(** The numeral of the value of a run of digits is the run without its
    leading zeros. *)
Lemma decimal_int_value ds :
  all is_digit ds = true -> ds <> "" ->
  decimal (int_value ds) = drop_zeros ds.
Proof.
  intros Hds Hne. destruct (uint_of_digits ds Hds) as [d Hd].
  unfold int_value, NilZero.uint_of_string.
  destruct ds as [|c t] eqn:Heq; [congruence|]. rewrite <- Heq in *.
  rewrite Hd. unfold decimal. change (Z.of_uint d) with (Z.of_int (Pos d)).
  rewrite DecimalZ.to_of. simpl.
  rewrite <- (NilEmpty.sus _ _ Hd). apply string_of_unorm.
  intros ->. simpl in Hd. apply NilEmpty.sus in Hd. simpl in Hd. congruence.
Qed.

(** [int] succeeds on a run of digits within the limit. *)
Lemma py_int_digits ds :
  all is_digit ds = true -> ds <> "" -> within_cap ds = true ->
  py_int ds = Ok (int_value ds).
Proof.
  intros Hds Hne Hcap. destruct (uint_of_digits ds Hds) as [d Hd].
  unfold py_int, int_value, NilZero.uint_of_string.
  destruct ds as [|c t] eqn:Heq; [congruence|]. rewrite <- Heq in *.
  now rewrite Hd, Hcap.
Qed.

(** [int] raises on every text beyond the limit. *)
Lemma py_int_long s : within_cap s = false -> py_int s = Raise ValueError.
Proof.
  intros Hcap. unfold py_int.
  destruct (NilZero.uint_of_string s); [now rewrite Hcap | reflexivity].
Qed.

(** [str] succeeds on the value of a run of digits within the limit. *)
Lemma py_str_int_value ds :
  all is_digit ds = true -> ds <> "" -> within_cap ds = true ->
  py_str (int_value ds) = Ok (drop_zeros ds).
Proof.
  intros Hds Hne Hcap. unfold py_str.
  rewrite Z.abs_eq by apply int_value_nonneg.
  rewrite (decimal_int_value ds Hds Hne).
  assert (Hc : within_cap (drop_zeros ds) = true).
  { unfold within_cap in *. apply Nat.leb_le. apply Nat.leb_le in Hcap.
    pose proof (length_drop_zeros ds). lia. }
  now rewrite Hc.
Qed.

End IntFacts.

(* ===================================================================== *)
(** ** The two anchored patterns: facts *)

Module MatchFacts.
Import Char Str Re CharFacts StrFacts ReFacts.

Lemma all_digit_not_AZ s : all is_digit s = true -> none is_AZ s = true.
Proof.
  apply all_impl. intros c Hc. destruct (digit_plain c Hc) as (_ & -> & _).
  reflexivity.
Qed.

Lemma no_digit_first_take_while s :
  no_digit_first s = true -> take_while is_digit s = "".
Proof.
  destruct s as [|c t]; simpl; [reflexivity|].
  intros H. apply negb_true_iff in H. now rewrite H.
Qed.

Lemma take_while_digit_rest s :
  no_digit_first (drop_while is_digit s) = true.
Proof.
  induction s as [|c t IH]; simpl; [reflexivity|].
  destruct (is_digit c) eqn:Hc; [exact IH|]. simpl. now rewrite Hc.
Qed.

Lemma is_empty_false s : s <> "" -> is_empty s = false.
Proof. destruct s; simpl; congruence. Qed.

Lemma is_empty_false_inv s : is_empty s = false -> s <> "".
Proof. destruct s; simpl; congruence. Qed.

Lemma append_nonempty a b : a <> "" -> a +:+ b <> "".
Proof. destruct a; simpl; congruence. Qed.

(** The letters are the whole leading block of capitals, the digits the
    start of the block of digits behind it. *)
Lemma bill_match_app letters digits rest :
  letters <> "" -> all is_AZ letters = true ->
  digits <> "" -> all is_digit digits = true ->
  bill_match (letters +:+ digits +:+ rest) =
  Some (letters, drop_zeros (digits +:+ take_while is_digit rest)).
Proof.
  intros HL HLa HD HDa. unfold bill_match.
  assert (Hhead : take_while is_AZ (digits +:+ rest) = "").
  { destruct digits as [|c t]; [congruence|]. simpl in *.
    apply andb_true_iff in HDa as [Hc _].
    destruct (digit_plain c Hc) as (_ & -> & _). reflexivity. }
  rewrite take_while_app, Hhead, append_empty_r by assumption.
  rewrite drop_while_app by assumption.
  assert (Hdrop : drop_while is_AZ (digits +:+ rest) = digits +:+ rest).
  { rewrite <- (take_drop_while is_AZ (digits +:+ rest)) at 2.
    now rewrite Hhead. }
  rewrite Hdrop, take_while_app by assumption.
  rewrite (is_empty_false _ HL).
  rewrite (is_empty_false _ (append_nonempty _ _ HD)). reflexivity.
Qed.

Lemma bill_match_inv s prefix number :
  bill_match s = Some (prefix, number) ->
  exists digits rest,
    s = prefix +:+ digits +:+ rest /\
    prefix <> "" /\ all is_AZ prefix = true /\
    digits <> "" /\ all is_digit digits = true /\
    no_digit_first rest = true /\ number = drop_zeros digits.
Proof.
  unfold bill_match. intros H.
  destruct (is_empty (take_while is_AZ s)) eqn:HL; [discriminate|].
  destruct (is_empty (take_while is_digit (drop_while is_AZ s))) eqn:HD;
    [discriminate|].
  simpl in H. injection H as <- <-.
  exists (take_while is_digit (drop_while is_AZ s)),
         (drop_while is_digit (drop_while is_AZ s)).
  rewrite !take_drop_while.
  repeat split; auto using is_empty_false_inv, take_while_all,
    take_while_digit_rest.
Qed.

Lemma bill_match_some_iff s :
  is_Some (bill_match s) <-> letters_then_digits s.
Proof.
  split.
  - intros [[prefix number] H].
    destruct (bill_match_inv _ _ _ H) as (ds & rest & ? & ? & ? & ? & ? & _).
    now exists prefix, ds, rest.
  - intros (L & D & R & -> & HL & HLa & HD & HDa).
    rewrite bill_match_app by assumption. eauto.
Qed.

Lemma bill_match_none_iff s :
  bill_match s = None <-> ~ letters_then_digits s.
Proof.
  rewrite <- bill_match_some_iff. destruct (bill_match s); split; intros H.
  - discriminate.
  - destruct H. eauto.
  - intros [? ?]. discriminate.
  - reflexivity.
Qed.

(** The texts [L.D], an optional period, blanks, a run of digits and a
    rest match the special pattern, and the group is the run. *)
Lemma maine_match_shape (second_dot : bool) blanks ds rest :
  all is_space blanks = true ->
  ds <> "" -> all is_digit ds = true -> no_digit_first rest = true ->
  maine_match ("L.D" +:+ (if second_dot then "." else "") +:+
               blanks +:+ ds +:+ rest) = Some ds.
Proof.
  intros Hb Hne Hds Hr.
  assert (Hrun : take_while is_digit (drop_while is_space (blanks +:+ ds +:+ rest)) = ds).
  { rewrite drop_while_app by assumption.
    destruct ds as [|c t]; [congruence|]. simpl in Hds.
    apply andb_true_iff in Hds as [Hc Ht].
    destruct (digit_plain c Hc) as (_ & _ & Hs & _).
    simpl. rewrite Hs. simpl. rewrite Hc. f_equal.
    rewrite take_while_app by assumption.
    now rewrite (no_digit_first_take_while _ Hr), append_empty_r. }
  destruct second_dot; simpl.
  - rewrite Hrun. now rewrite (is_empty_false _ Hne).
  - assert (Hhead : match blanks +:+ ds +:+ rest with
                    | EmptyString => blanks +:+ ds +:+ rest
                    | String d u => if is_dot d then u else blanks +:+ ds +:+ rest
                    end = blanks +:+ ds +:+ rest).
    { destruct blanks as [|b bs]; simpl in *.
      - destruct ds as [|c t]; [congruence|]. simpl in *.
        apply andb_true_iff in Hds as [Hc _].
        destruct (digit_plain c Hc) as (_ & _ & _ & -> & _). reflexivity.
      - apply andb_true_iff in Hb as [Hc _].
        destruct (space_plain b Hc) as (_ & _ & -> & _). reflexivity. }
    rewrite Hhead, Hrun. now rewrite (is_empty_false _ Hne).
Qed.

(** The special case needs a period as second character. *)
Lemma maine_match_nodot s : none is_dot s = true -> maine_match s = None.
Proof.
  destruct s as [|a [|b [|c t]]]; try reflexivity.
  unfold none. simpl. rewrite !andb_true_iff. intros (_ & Hb & _).
  apply negb_true_iff in Hb. rewrite Hb, andb_false_r. reflexivity.
Qed.

End MatchFacts.

(* ===================================================================== *)
(** ** The normalizer: facts *)

Module NormFacts.
Import Char Str Re CharFacts StrFacts ReFacts IntFacts MatchFacts.

(** *** How [clean] reads the start of a text *)

Lemma clean_LD t :
  clean (String "L" (String "." (String "D" t))) =
  String "L" (String "D" (clean t)).
Proof. reflexivity. Qed.

Lemma clean_dot t : clean (String "." t) = clean t.
Proof. reflexivity. Qed.

Lemma clean_space c t : is_space c = true -> clean (String c t) = clean t.
Proof.
  intros Hc. destruct (space_plain c Hc) as (Hu & _ & Hd & Ho).
  unfold clean, upper, sub_parens, sub_dots, sub_spaces. simpl.
  rewrite Hu, Ho. simpl. rewrite Hd. simpl. now rewrite Hc.
Qed.

Lemma clean_digit c t :
  is_digit c = true -> clean (String c t) = String c (clean t).
Proof.
  intros Hc. destruct (digit_plain c Hc) as (Hu & _ & Hs & Hd & Ho & _).
  unfold clean, upper, sub_parens, sub_dots, sub_spaces. simpl.
  rewrite Hu, Ho. simpl. rewrite Hd. simpl. now rewrite Hs.
Qed.

Lemma clean_skip_spaces t :
  take_while is_digit (drop_while is_space t) <> "" ->
  exists c r, clean t = String c r /\ is_digit c = true.
Proof.
  induction t as [|c t IH]; simpl; [congruence|].
  destruct (is_space c) eqn:Hs.
  - intros H. rewrite (clean_space _ _ Hs). now apply IH.
  - simpl. destruct (is_digit c) eqn:Hc; [|congruence].
    intros _. exists c, (clean t). split; [now apply clean_digit | exact Hc].
Qed.

(** A text taking the special case also begins, once cleaned, with
    letters followed by a digit. *)
Lemma maine_match_clean s ds :
  maine_match s = Some ds -> letters_then_digits (clean s).
Proof.
  destruct s as [|a [|b [|c t]]]; try discriminate. simpl.
  destruct (Ascii.eqb a "L") eqn:Ha; [|discriminate].
  destruct (is_dot b) eqn:Hb; [|discriminate].
  destruct (Ascii.eqb c "D") eqn:Hc; [|discriminate]. simpl.
  apply Ascii.eqb_eq in Ha, Hc. apply dot_eq in Hb. subst a b c.
  rewrite clean_LD.
  set (t1 := match t with
             | EmptyString => t
             | String d u => if is_dot d then u else t
             end).
  assert (Ht1 : clean t = clean t1).
  { subst t1. destruct t as [|d u]; [reflexivity|].
    destruct (is_dot d) eqn:Hd; [|reflexivity].
    apply dot_eq in Hd. subst d. apply clean_dot. }
  destruct (is_empty (take_while is_digit (drop_while is_space t1))) eqn:He;
    [discriminate|].
  intros _. apply is_empty_false_inv, clean_skip_spaces in He.
  destruct He as (d & r & Hr & Hd). rewrite Ht1, Hr.
  exists "LD", (String d ""), r. simpl. rewrite Hd.
  repeat split; congruence.
Qed.

Lemma maine_match_digits s ds :
  maine_match s = Some ds -> ds <> "" /\ all is_digit ds = true.
Proof.
  destruct s as [|a [|b [|c t]]]; try discriminate. simpl.
  destruct (Ascii.eqb a "L" && is_dot b && Ascii.eqb c "D"); [|discriminate].
  match goal with |- context [is_empty ?u] => destruct (is_empty u) eqn:He end;
    [discriminate|].
  intros [= <-]. split; [now apply is_empty_false_inv | apply take_while_all].
Qed.

(** *** Settled and canonical texts *)

Lemma clean_no_space s : none is_space (clean s) = true.
Proof. unfold clean, sub_spaces. apply all_filter_self. Qed.

Lemma clean_no_dot s : none is_dot (clean s) = true.
Proof.
  unfold clean, sub_spaces, sub_dots. apply all_filter, all_filter_self.
Qed.

Lemma clean_upper s : upper (clean s) = clean s.
Proof.
  apply map_fixed. unfold clean, sub_spaces, sub_dots, sub_parens.
  do 2 apply all_filter. apply all_sub_parens_from.
  apply map_idem, to_upper_idem.
Qed.

Lemma clean_settled s : none is_LF s = true -> settled (clean s).
Proof.
  intros Hn. repeat split;
    auto using clean_upper, clean_no_dot, clean_no_space.
  unfold clean, sub_spaces, sub_dots, sub_parens.
  do 2 apply pairfree_filter. apply pairfree_sub_parens_from.
  unfold none, upper. rewrite all_map; [exact Hn|].
  intros c. now rewrite LF_upper.
Qed.

Lemma settled_clean s : settled s -> clean s = s.
Proof.
  intros (Hu & Hp & Hd & Hs). unfold clean.
  rewrite Hu, (pairfree_fixed _ Hp).
  unfold sub_dots, sub_spaces.
  rewrite (filter_fixed _ _ Hd). exact (filter_fixed _ _ Hs).
Qed.

Lemma plain_chars letters digits :
  all is_AZ letters = true -> all is_digit digits = true ->
  all (fun c => is_AZ c || is_digit c) (letters +:+ digits) = true.
Proof.
  intros HL HD. rewrite all_app, andb_true_iff. split.
  - revert HL. apply all_impl. intros c ->. reflexivity.
  - revert HD. apply all_impl. intros c ->. apply orb_true_r.
Qed.

Lemma plain_settled s :
  all (fun c => is_AZ c || is_digit c) s = true -> settled s.
Proof.
  intros H.
  assert (Hc : forall c, is_AZ c || is_digit c = true ->
     to_upper c = c /\ is_space c = false /\ is_dot c = false /\
     is_open c = false).
  { intros c Hc. apply orb_true_iff in Hc as [Hc|Hc].
    - destruct (AZ_plain c Hc) as (? & _ & ? & ? & ? & _). auto.
    - destruct (digit_plain c Hc) as (? & _ & ? & ? & ? & _). auto. }
  repeat split.
  - apply map_fixed. revert H. apply all_impl. intros c Hp.
    apply Ascii.eqb_eq. now apply Hc.
  - apply none_open_pairfree. revert H. apply all_impl. intros c Hp.
    destruct (Hc c Hp) as (_ & _ & _ & ->). reflexivity.
  - revert H. apply all_impl. intros c Hp.
    destruct (Hc c Hp) as (_ & _ & -> & _). reflexivity.
  - revert H. apply all_impl. intros c Hp.
    destruct (Hc c Hp) as (_ & -> & _). reflexivity.
Qed.

Lemma canonical_settled s : canonical s -> settled s.
Proof.
  intros (L & D & -> & _ & HL & _ & HD & _).
  now apply plain_settled, plain_chars.
Qed.

Lemma canonical_finish s : canonical s -> finish s = s.
Proof.
  intros (L & D & -> & HL & HLa & HD & HDa & Hz). unfold finish.
  rewrite <- (append_empty_r D) at 1.
  rewrite bill_match_app by assumption. simpl.
  now rewrite append_empty_r, Hz.
Qed.

Lemma bill_match_canonical s prefix number :
  bill_match s = Some (prefix, number) -> canonical (prefix +:+ number).
Proof.
  intros H.
  destruct (bill_match_inv _ _ _ H) as (D & R & _ & HL & HLa & HD & HDa & _ & ->).
  exists prefix, (drop_zeros D).
  repeat split; auto using drop_zeros_nonempty, drop_zeros_all, drop_zeros_idem.
Qed.

(** On a settled text the normalizer only runs its last step. *)
Lemma normalize_settled s :
  settled s -> normalize_bill_number (PyStr s) = Ok (PyStr (strip (finish s))).
Proof.
  intros Hs. simpl.
  rewrite maine_match_nodot by apply Hs.
  now rewrite (settled_clean _ Hs).
Qed.

Lemma settled_no_space s : settled s -> none is_space s = true.
Proof. now intros (_ & _ & _ & H). Qed.

(** A canonical text is a fixed point of the normalizer. *)
Lemma normalize_canonical s :
  canonical s -> normalize_bill_number (PyStr s) = Ok (PyStr s).
Proof.
  intros Hc. pose proof (canonical_settled _ Hc) as Hs.
  rewrite (normalize_settled _ Hs), (canonical_finish _ Hc).
  now rewrite strip_fixed by now apply settled_no_space.
Qed.

(** The result on the special case, within the limit: [LD] and the run
    without its leading zeros, which is the numeral of the run's value. *)
Lemma normalize_maine s ds :
  maine_match s = Some ds -> within_cap ds = true ->
  normalize_bill_number (PyStr s) = Ok (PyStr ("LD" +:+ drop_zeros ds)) /\
  drop_zeros ds = decimal (int_value ds) /\
  canonical ("LD" +:+ drop_zeros ds).
Proof.
  intros Hm Hcap. destruct (maine_match_digits _ _ Hm) as [Hne Hds].
  split; [|split].
  - simpl. rewrite Hm, (py_int_digits ds Hds Hne Hcap).
    cbv beta iota delta [bind].
    now rewrite (py_str_int_value ds Hds Hne Hcap).
  - symmetry. now apply decimal_int_value.
  - exists "LD", (drop_zeros ds).
    repeat split; auto using drop_zeros_nonempty, drop_zeros_all, drop_zeros_idem.
Qed.

(** Beyond the limit the special case raises. *)
Lemma normalize_maine_long s ds :
  maine_match s = Some ds -> within_cap ds = false ->
  normalize_bill_number (PyStr s) = Raise ValueError.
Proof.
  intros Hm Hcap. simpl. now rewrite Hm, (py_int_long ds Hcap).
Qed.

(** The result in the general case. *)
Lemma normalize_general s :
  maine_match s = None ->
  normalize_bill_number (PyStr s) = Ok (PyStr (finish (clean s))).
Proof.
  intros Hm. simpl. rewrite Hm. fold (finish (clean s)).
  f_equal. f_equal. apply strip_fixed.
  unfold finish. destruct (bill_match (clean s)) as [[p n]|] eqn:Hb.
  - apply settled_no_space, canonical_settled.
    now apply (bill_match_canonical (clean s)).
  - apply clean_no_space.
Qed.

(** On a text the normalizer returns a text, or raises [ValueError] when
    the run of the special case is beyond the limit. *)
Lemma normalize_cases s :
  (special_run_within_cap s = true /\
   exists out, normalize_bill_number (PyStr s) = Ok (PyStr out)) \/
  (special_run_within_cap s = false /\
   normalize_bill_number (PyStr s) = Raise ValueError).
Proof.
  unfold special_run_within_cap.
  destruct (maine_match s) as [ds|] eqn:Hm.
  - destruct (within_cap ds) eqn:Hcap.
    + left. split; [reflexivity|].
      destruct (normalize_maine _ _ Hm Hcap) as (-> & _). eauto.
    + right. split; [reflexivity | now apply (normalize_maine_long s ds)].
  - left. split; [reflexivity|]. rewrite (normalize_general _ Hm). eauto.
Qed.

(** The normalizer returns a text on a text, and a missing value on a
    missing value. *)
Lemma normalize_isna v out :
  normalize_bill_number v = Ok out -> isna out = isna v.
Proof.
  destruct v as [| |s]; [simpl; intros [= <-]; reflexivity ..|].
  destruct (normalize_cases s) as [[_ [t ->]]|[_ ->]]; [|discriminate].
  now intros [= <-].
Qed.

End NormFacts.

(* ===================================================================== *)
(** ** The normalizer: results *)

Module Normalizer.
Import Char Str Re CharFacts StrFacts ReFacts IntFacts MatchFacts NormFacts.

(** C1. The seven examples of the specification: ["S.350"] gives ["S350"],
    ["H.B.158"] gives ["HB158"], ["S.F.473"] gives ["SF473"],
    ["L.D. 1134 (S.P. 461)"] gives ["LD1134"], ["H.B. 229"] gives ["HB229"],
    ["H.C.R.2042"] gives ["HCR2042"] and ["S.B.0009"] gives ["SB9"]. *)
Theorem normalize_examples :
  normalize_bill_number (PyStr "S.350") = Ok (PyStr "S350") /\
  normalize_bill_number (PyStr "H.B.158") = Ok (PyStr "HB158") /\
  normalize_bill_number (PyStr "S.F.473") = Ok (PyStr "SF473") /\
  normalize_bill_number (PyStr "L.D. 1134 (S.P. 461)") = Ok (PyStr "LD1134") /\
  normalize_bill_number (PyStr "H.B. 229") = Ok (PyStr "HB229") /\
  normalize_bill_number (PyStr "H.C.R.2042") = Ok (PyStr "HCR2042") /\
  normalize_bill_number (PyStr "S.B.0009") = Ok (PyStr "SB9").
Proof. repeat split; vm_compute; reflexivity. Qed.

(** C2, as stated, fails: on a parenthetical that spans a line feed the
    first call leaves ["()"] (the line feed stops [.*?], and is then removed
    as a blank), and the second call removes it. *)
Lemma normalize_twice_two_line_parenthetical :
  normalize_bill_number (PyStr two_line_parenthetical) = Ok (PyStr "()") /\
  normalize_twice (PyStr two_line_parenthetical) = Ok (PyStr "") /\
  normalize_twice (PyStr two_line_parenthetical) <>
  normalize_bill_number (PyStr two_line_parenthetical).
Proof. repeat split; vm_compute; congruence. Qed.

(** C2, amended. On every text without a line feed the normalizer is
    idempotent: normalizing its result gives that result again. *)
Theorem normalize_idempotent s :
  none is_LF s = true ->
  normalize_twice (PyStr s) = normalize_bill_number (PyStr s).
Proof.
  intros Hn. unfold normalize_twice.
  destruct (maine_match s) as [ds|] eqn:Hm.
  - destruct (within_cap ds) eqn:Hcap.
    + destruct (normalize_maine _ _ Hm Hcap) as (-> & _ & Hc).
      cbv beta iota delta [bind]. now apply normalize_canonical.
    + now rewrite (normalize_maine_long _ _ Hm Hcap).
  - rewrite (normalize_general _ Hm). cbv beta iota delta [bind].
    pose proof (clean_settled _ Hn) as Hs.
    unfold finish. destruct (bill_match (clean s)) as [[p d]|] eqn:Hb.
    + apply normalize_canonical. now apply (bill_match_canonical (clean s)).
    + rewrite (normalize_settled _ Hs). unfold finish. rewrite Hb.
      now rewrite strip_fixed by now apply settled_no_space.
Qed.

Lemma normalize_idempotent_witness :
  none is_LF "S.B.0009 (H.B. 12)" = true /\
  normalize_twice (PyStr "S.B.0009 (H.B. 12)") =
  normalize_bill_number (PyStr "S.B.0009 (H.B. 12)").
Proof.
  split; [reflexivity | apply normalize_idempotent; reflexivity].
Defined.

(** C3, as stated, fails: the empty text is not a missing value, and the
    normalizer returns it as the empty text. *)
Lemma normalize_empty_text :
  isna (PyStr "") = false /\
  normalize_bill_number (PyStr "") = Ok (PyStr "") /\
  normalize_bill_number (PyStr "") <> Ok PyNone.
Proof. repeat split; vm_compute; congruence. Qed.

(** C3, amended. On every missing value ([None] or NaN) the normalizer
    returns the no-value marker [None], never a text; the empty text is not
    a missing value and is returned as the empty text. *)
Theorem normalize_missing :
  (forall v, isna v = true -> normalize_bill_number v = Ok PyNone) /\
  normalize_bill_number (PyStr "") = Ok (PyStr "").
Proof.
  split; [|reflexivity].
  intros [| |s] H; [reflexivity | reflexivity | discriminate].
Qed.

Lemma normalize_missing_witness :
  isna PyNaN = true /\ normalize_bill_number PyNaN = Ok PyNone.
Proof.
  split; [reflexivity | apply (proj1 normalize_missing PyNaN); reflexivity].
Defined.

(** C9, as stated, fails: a bill name in the form of the special case
    whose number has 4301 digits makes [int] raise [ValueError]. *)
Lemma normalize_long_maine_bill :
  normalize_bill_number (PyStr long_maine_bill) = Raise ValueError.
Proof. vm_compute. reflexivity. Qed.

(** C9, amended. The normalizer raises on one kind of text only. When
    the text does not take the special case, or its run of digits there has
    at most 4300 digits, the normalizer returns a text; when the run has
    more, it raises [ValueError]; and when the cleaned text (capitals,
    parentheticals, periods and blanks removed) does not match the
    letters-then-digits pattern, the result is that cleaned text. *)
Theorem normalize_total_within_cap :
  (forall s, special_run_within_cap s = true ->
     exists out, normalize_bill_number (PyStr s) = Ok (PyStr out)) /\
  (forall s, special_run_within_cap s = false ->
     normalize_bill_number (PyStr s) = Raise ValueError) /\
  (forall s, bill_match (clean s) = None ->
     normalize_bill_number (PyStr s) = Ok (PyStr (clean s))).
Proof.
  split; [|split].
  - intros s Hcap.
    destruct (normalize_cases s) as [[_ H]|[H _]]; [exact H | congruence].
  - intros s Hcap.
    destruct (normalize_cases s) as [[H _]|[_ H]]; [congruence | exact H].
  - intros s Hb.
    assert (Hm : maine_match s = None).
    { destruct (maine_match s) as [ds|] eqn:Hm; [|reflexivity].
      apply maine_match_clean, bill_match_some_iff in Hm.
      rewrite Hb in Hm. now destruct Hm. }
    rewrite (normalize_general _ Hm). unfold finish. now rewrite Hb.
Qed.

Lemma normalize_total_within_cap_witness :
  (exists out, normalize_bill_number (PyStr "L.D. 0461 (S.P. 12)") =
               Ok (PyStr out)) /\
  normalize_bill_number (PyStr long_maine_bill) = Raise ValueError /\
  normalize_bill_number (PyStr "Joint Res. (pending)") = Ok (PyStr "JOINTRES").
Proof.
  destruct normalize_total_within_cap as (Hin & Hout & Hpass).
  split; [|split].
  - apply Hin. vm_compute. reflexivity.
  - apply Hout. vm_compute. reflexivity.
  - exact (Hpass "Joint Res. (pending)" eq_refl).
Defined.

(** C10. In the general case, when the cleaned text is a block of capital
    letters, then a run of digits, then a rest that does not begin with a
    digit, the result is the letters followed by the integer value of the
    run, written in decimal: the rest is dropped.  (The code rebuilds the
    number from the group of the pattern, so no limit on digits applies.) *)
Theorem normalize_drops_rest s letters digits rest :
  maine_match s = None ->
  clean s = letters +:+ digits +:+ rest ->
  is_empty letters = false -> all is_AZ letters = true ->
  is_empty digits = false -> all is_digit digits = true ->
  no_digit_first rest = true ->
  normalize_bill_number (PyStr s) =
  Ok (PyStr (letters +:+ decimal (int_value digits))).
Proof.
  intros Hm Hc HL HLa HD HDa HR.
  apply is_empty_false_inv in HL, HD.
  rewrite (normalize_general _ Hm). unfold finish.
  rewrite Hc, bill_match_app by assumption.
  rewrite (no_digit_first_take_while _ HR), append_empty_r.
  now rewrite (decimal_int_value digits HDa HD).
Qed.

Lemma normalize_drops_rest_witness :
  normalize_bill_number (PyStr "S.B.9A") =
  Ok (PyStr ("SB" +:+ decimal (int_value "9"))).
Proof.
  apply (normalize_drops_rest "S.B.9A" "SB" "9" "A"); reflexivity.
Defined.

End Normalizer.

(* ===================================================================== *)
(** ** The year extractor *)

Module Year.
Import Char Str Re StrFacts IntFacts.

Lemma search_year_cons c t :
  search_year (String c t) =
  if four_digits_at 0 (String c t) then Some (take 4 (String c t))
  else search_year t.
Proof. reflexivity. Qed.

Lemma four_digits_at_cons i c t :
  four_digits_at (S i) (String c t) = four_digits_at i t.
Proof. reflexivity. Qed.

Lemma four_digits_at_empty i : four_digits_at i "" = false.
Proof. now destruct i. Qed.

(** The search returns the leftmost window of four digits. *)
Lemma search_year_first i : forall s,
  four_digits_at i s = true ->
  (forall j, (j < i)%nat -> four_digits_at j s = false) ->
  search_year s = Some (take 4 (drop i s)).
Proof.
  induction i as [|i IH]; intros [|c t] Hi Hless;
    try (rewrite four_digits_at_empty in Hi; discriminate).
  - rewrite search_year_cons, Hi. reflexivity.
  - rewrite search_year_cons, (Hless 0%nat) by lia.
    rewrite four_digits_at_cons in Hi. simpl drop. apply IH; [exact Hi|].
    intros j Hj. rewrite <- (four_digits_at_cons j c t). apply Hless. lia.
Qed.

Lemma search_year_none s :
  (forall i, four_digits_at i s = false) -> search_year s = None.
Proof.
  induction s as [|c t IH]; intros H; [reflexivity|].
  rewrite search_year_cons, (H 0%nat). apply IH.
  intros i. rewrite <- (four_digits_at_cons i c t). apply H.
Qed.

Lemma search_year_digits s w :
  search_year s = Some w ->
  all is_digit w = true /\ w <> "" /\ within_cap w = true.
Proof.
  induction s as [|c t IH]; [discriminate|].
  rewrite search_year_cons. unfold four_digits_at. simpl drop.
  destruct (_ && _) eqn:Hw; [|exact IH].
  intros [= <-]. apply andb_true_iff in Hw as [Hl Hw].
  split; [exact Hw|]. split; [discriminate|].
  unfold within_cap. apply Nat.leb_le. apply Nat.eqb_eq in Hl.
  etransitivity; [apply Nat.eq_le_incl; exact Hl|].
  apply Nat.leb_le. vm_compute. reflexivity.
Qed.

Lemma extract_year_defined v : exists n, extract_year v = Ok n.
Proof.
  destruct v as [| |s]; simpl; eauto.
  destruct (search_year s) as [w|] eqn:Hw; eauto.
  destruct (search_year_digits _ _ Hw) as (Hd & Hne & Hcap).
  rewrite (py_int_digits w Hd Hne Hcap). eauto.
Qed.

(** C4, as stated, fails.  The only run of digits of ["12345"] has five
    digits, so no run of exactly four exists, yet the result is 1234 and not
    the fallback; and in ["12345 2025"] the one run of exactly four digits
    is 2025, yet the result is 1234. *)
Lemma extract_year_longer_run :
  digit_runs "12345" = ["12345"] /\
  extract_year (PyStr "12345") = Ok 1234%Z /\
  1234%Z <> FALLBACK_YEAR /\
  digit_runs "12345 2025" = ["12345"; "2025"] /\
  extract_year (PyStr "12345 2025") = Ok 1234%Z.
Proof. repeat split; vm_compute; congruence. Qed.

(** C4, amended. A missing value gives the fallback year; a text in which
    four consecutive digits occur gives the integer read from the leftmost
    such four digits, also when they are part of a longer run; a text
    without four consecutive digits gives the fallback year; and
    ["01/19/2025"] gives 2025. *)
Theorem extract_year_spec :
  (forall v, isna v = true -> extract_year v = Ok FALLBACK_YEAR) /\
  (forall s i,
     four_digits_at i s = true ->
     (forall j, (j < i)%nat -> four_digits_at j s = false) ->
     exists n, py_int (take 4 (drop i s)) = Ok n /\
               extract_year (PyStr s) = Ok n) /\
  (forall s, (forall i, four_digits_at i s = false) ->
             extract_year (PyStr s) = Ok FALLBACK_YEAR) /\
  extract_year (PyStr "01/19/2025") = Ok 2025%Z.
Proof.
  split; [|split; [|split]].
  - intros [| |s] H; [reflexivity | reflexivity | discriminate].
  - intros s i Hi Hless. simpl.
    rewrite (search_year_first i s Hi Hless).
    destruct (extract_year_defined (PyStr s)) as [n Hn].
    simpl in Hn. rewrite (search_year_first i s Hi Hless) in Hn. eauto.
  - intros s H. simpl. now rewrite search_year_none.
  - reflexivity.
Qed.

Lemma extract_year_spec_witness :
  exists n, py_int (take 4 (drop 3 "on 20251 or so")) = Ok n /\
            extract_year (PyStr "on 20251 or so") = Ok n.
Proof.
  apply (proj1 (proj2 extract_year_spec) "on 20251 or so" 3%nat).
  - reflexivity.
  - intros j Hj. do 3 (destruct j as [|j]; [reflexivity|]). lia.
Defined.

End Year.

(* ===================================================================== *)
(** ** The issue categorizer *)

Module Categorizer.
Import Str.

Lemma elem_of_add_if b k (X : gset string) c :
  c ∈ add_if b k X <-> (b = true /\ c = k) \/ c ∈ X.
Proof.
  destruct b; simpl; [rewrite elem_of_union, elem_of_singleton|];
    intuition congruence.
Qed.

Lemma elem_of_steps text groups : forall (acc : gset string) c,
  c ∈ fold_left (step text) groups acc <->
  c ∈ acc \/ exists keys, In (keys, c) groups /\ any_in keys text = true.
Proof.
  induction groups as [|[keys k] groups IH]; intros acc c; simpl.
  - split; [auto | intros [H|(? & [] & _)]; exact H].
  - rewrite IH. unfold step. rewrite elem_of_add_if. simpl. split.
    + intros [[[Hb ->]|H]|(keys' & Hin & Hb)]; eauto 6.
    + intros [H|(keys' & [Heq|Hin] & Hb)]; eauto 6.
      injection Heq as <- <-. auto.
Qed.

Lemma any_in_spec keys text :
  any_in keys text = true <->
  exists k, In k keys /\ contains k text = true.
Proof. unfold any_in. apply existsb_exists. Qed.

Lemma elem_of_steps_matched text c :
  c ∈ fold_left (step text) keyword_groups (∅ : gset string) <-> matched text c.
Proof.
  rewrite elem_of_steps. unfold matched. split.
  - intros [H|(keys & Hin & Hb)]; [destruct (not_elem_of_empty c H)|].
    exists keys. split; [exact Hin | now apply any_in_spec].
  - intros (keys & Hin & Hk). right. exists keys.
    split; [exact Hin | now apply any_in_spec].
Qed.

(** The nine tests of the source are one pass over the table of groups. *)
Lemma categorize_text s :
  categorize_issues (PyStr s) =
  Ok (let categories := fold_left (step (lower s)) keyword_groups ∅ in
      if decide (categories = ∅) then {[ "other" ]} else categories).
Proof.
  unfold categorize_issues.
  cbv [fold_left keyword_groups step fst snd any_in existsb].
  rewrite !orb_false_r. reflexivity.
Qed.

(** C5. The categorizer returns a set that is never empty; it is
    [{other}] on a missing value and on a text whose lower-case form
    contains no keyword of any group, and otherwise exactly the categories
    that have a keyword contained in the lower-case text; a text with only
    "school" and "drag" gives [{education, expression}]. *)
Theorem categorize_issues_spec :
  (forall v, exists categories : gset string,
     categorize_issues v = Ok categories /\ categories <> ∅) /\
  (forall v, isna v = true -> categorize_issues v = Ok {[ "other" ]}) /\
  (forall s, (forall c, ~ matched (lower s) c) ->
     categorize_issues (PyStr s) = Ok {[ "other" ]}) /\
  (forall s, (exists c, matched (lower s) c) ->
     exists categories : gset string,
       categorize_issues (PyStr s) = Ok categories /\
       forall c, c ∈ categories <-> matched (lower s) c) /\
  categorize_issues (PyStr "School Drag") = Ok {[ "education"; "expression" ]}.
Proof.
  assert (Hraw : forall s,
    fold_left (step (lower s)) keyword_groups (∅ : gset string) = ∅ <->
    forall c, ~ matched (lower s) c).
  { intros s. split.
    - intros He c Hc. apply elem_of_steps_matched in Hc.
      rewrite He in Hc. exact (not_elem_of_empty c Hc).
    - intros Hno. apply leibniz_equiv. intros c. split.
      + intros Hc. apply elem_of_steps_matched in Hc. now destruct (Hno c).
      + intros Hc. destruct (not_elem_of_empty c Hc). }
  split; [|split; [|split; [|split]]].
  - intros [| |s];
      [eexists; split; [reflexivity | apply non_empty_singleton_L] ..|].
    rewrite categorize_text. cbv zeta. eexists. split; [reflexivity|].
    case_decide; [apply non_empty_singleton_L | assumption].
  - intros [| |s] H; [reflexivity | reflexivity | discriminate].
  - intros s Hno. rewrite categorize_text. cbv zeta.
    now rewrite decide_True by exact (proj2 (Hraw s) Hno).
  - intros s [c0 Hc0]. rewrite categorize_text. cbv zeta.
    eexists. split; [reflexivity|].
    rewrite decide_False.
    + intros c. apply elem_of_steps_matched.
    + intros He. exact (proj1 (Hraw s) He c0 Hc0).
  - vm_compute. reflexivity.
Qed.

Lemma categorize_issues_spec_witness :
  exists categories : gset string,
    categorize_issues (PyStr "Bathroom bans; Sports") = Ok categories /\
    forall c, c ∈ categories <-> matched (lower "Bathroom bans; Sports") c.
Proof.
  apply (proj1 (proj2 (proj2 (proj2 categorize_issues_spec)))).
  exists "sports", ["sports"]. split; [simpl; tauto|].
  exists "sports". split; [simpl; tauto | reflexivity].
Defined.

End Categorizer.

(* ===================================================================== *)
(** ** The state table and the pipeline *)

Module Pipeline.
Import Str.

Lemma categorize_defined v : exists categories, categorize_issues v = Ok categories.
Proof. destruct v; simpl; eauto. Qed.

Lemma keep_row_text r : keep_row r = true -> exists s, State r = PyStr s.
Proof. unfold keep_row. destruct (State r); try discriminate. eauto. Qed.

Lemma bind_ok {A B} (r : result A) (k : A -> result B) b :
  bind r k = Ok b -> exists a, r = Ok a /\ k a = Ok b.
Proof. destruct r as [a|e]; simpl; [eauto | discriminate]. Qed.


(** The loop body on a row that passes the footer filter: it returns when
    the bill name is within the limit and raises [ValueError] otherwise. *)
Lemma build_record_kept r :
  keep_row r = true ->
  if bill_within_cap (Bill_Name r)
  then exists rec, build_record r = Ok rec
  else build_record r = Raise ValueError.
Proof.
  intros Hk. destruct (keep_row_text r Hk) as [s Hs].
  unfold build_record, bill_within_cap. rewrite Hs.
  destruct (Bill_Name r) as [| |t] eqn:Hb.
  1, 2: simpl normalize_bill_number;
    destruct (Year.extract_year_defined (Status_Date r)) as [y ->];
    destruct (categorize_defined (Issues r)) as [cs ->];
    unfold state_abbrev; cbv beta iota delta [bind]; eauto.
  destruct (NormFacts.normalize_cases t) as [[-> [out ->]]|[-> ->]];
    [|reflexivity].
  destruct (Year.extract_year_defined (Status_Date r)) as [y ->].
  destruct (categorize_defined (Issues r)) as [cs ->].
  unfold state_abbrev. cbv beta iota delta [bind]. eauto.
Qed.

(** What the loop returns: one record per row, in the order of the rows,
    behind the records it started from. *)
Lemma build_records_inv rows : forall records out,
  build_records records rows = Ok out ->
  exists news, out = records ++ news /\ Forall2 built_from rows news.
Proof.
  induction rows as [|r rows IH]; intros records out; simpl.
  - intros [= <-]. exists []. rewrite app_nil_r. split; constructor.
  - intros H. apply bind_ok in H as (rec & Hrec & H).
    destruct (IH _ _ H) as (news & -> & Hall).
    exists (rec :: news). rewrite <- app_assoc. split; [reflexivity|].
    now constructor.
Qed.

Lemma build_records_built rows : forall records news,
  Forall2 built_from rows news ->
  build_records records rows = Ok (records ++ news).
Proof.
  induction rows as [|r rows IH]; intros records news Hall;
    inversion Hall as [|? rec ? news' Hrec Hrest]; subst; simpl.
  - now rewrite app_nil_r.
  - unfold built_from in Hrec. rewrite Hrec. cbv beta iota delta [bind].
    rewrite (IH _ _ Hrest), <- app_assoc. reflexivity.
Qed.

(** The loop returns when every row yields a record, and raises when one
    row raises. *)
Lemma build_records_all rows :
  Forall (fun r => exists rec, build_record r = Ok rec) rows ->
  exists news, Forall2 built_from rows news.
Proof.
  induction 1 as [|r rows [rec Hrec] _ [news IH]]; [exists []; constructor|].
  exists (rec :: news). now constructor.
Qed.


Lemma filter_kept (df : list row) :
  Forall (fun r => keep_row r = true) (List.filter keep_row df).
Proof. apply List.Forall_forall. intros r Hr. now apply filter_In in Hr. Qed.

(** When the pipeline returns, the State column is not a float column and
    the records are those built from the rows left by the footer filter. *)
Lemma build_output df records :
  build_classification_dict df = Ok records ->
  float_column State df = false /\
  Forall2 built_from (List.filter keep_row df) records.
Proof.
  unfold build_classification_dict.
  destruct (float_column State df); [discriminate|]. intros H.
  destruct (build_records_inv _ _ _ H) as (news & -> & Hall). now split.
Qed.

Lemma build_input df records :
  float_column State df = false ->
  Forall2 built_from (List.filter keep_row df) records ->
  build_classification_dict df = Ok records.
Proof.
  intros Hf Hall. unfold build_classification_dict. rewrite Hf.
  now rewrite (build_records_built _ [] records Hall).
Qed.

Lemma accepted_rows df :
  forallb (fun r => negb (keep_row r) || bill_within_cap (Bill_Name r)) df = true ->
  Forall (fun r => exists rec, build_record r = Ok rec)
         (List.filter keep_row df).
Proof.
  intros Hall. apply List.Forall_forall. intros r Hr.
  apply filter_In in Hr as [Hin Hk].
  rewrite forallb_forall in Hall. specialize (Hall r Hin).
  rewrite Hk in Hall. simpl in Hall.
  pose proof (build_record_kept r Hk) as H. now rewrite Hall in H.
Qed.

Lemma build_accepted df :
  frame_accepted df = true ->
  exists records, build_classification_dict df = Ok records.
Proof.
  unfold frame_accepted. rewrite andb_true_iff, negb_true_iff.
  intros [Hf Hall].
  destruct (build_records_all _ (accepted_rows df Hall)) as [news Hnews].
  exists news. now apply build_input.
Qed.







(** C8. The table has an entry for each of the fifty states and for the
    District of Columbia, and nothing else; resolving a text never raises;
    a text that is not in the table resolves to its first two characters
    in capitals; and every row left by the footer filter has a text as
    state, so its resolution does not raise either. *)
Theorem state_abbrev_total :
  length US_STATES = 50%nat /\ NoDup US_STATES /\
  Forall (fun name => is_Some (STATE_ABBREV !! name))
         (US_STATES ++ ["District of Columbia"]) /\
  size STATE_ABBREV = 51%nat /\
  (forall s, exists code, state_abbrev (PyStr s) = Ok code) /\
  (forall s, STATE_ABBREV !! s = None ->
             state_abbrev (PyStr s) = Ok (upper (take 2 s))) /\
  (forall r, keep_row r = true -> exists code, state_abbrev (State r) = Ok code).
Proof.
  split; [reflexivity|]. split.
  { apply (bool_decide_unpack _). vm_compute. exact I. }
  split.
  { apply List.Forall_forall. intros name Hin. simpl in Hin.
    repeat (destruct Hin as [<-|Hin]; [vm_compute; eauto|]). destruct Hin. }
  split; [vm_compute; reflexivity|]. split; [|split].
  - intros s. unfold state_abbrev. eauto.
  - intros s Hs. unfold state_abbrev. now rewrite Hs.
  - intros r Hk. destruct (keep_row_text r Hk) as [s ->].
    unfold state_abbrev. eauto.
Qed.

Lemma state_abbrev_total_witness :
  state_abbrev (PyStr "Puerto Rico") = Ok "PU".
Proof.
  exact (proj1 (proj2 (proj2 (proj2 (proj2 (proj2 state_abbrev_total)))))
           "Puerto Rico" eq_refl).
Defined.

End Pipeline.

(* ===================================================================== *)
(** ** Further facts on characters and texts *)

Module MoreFacts.
Import Char Str Re CharFacts StrFacts ReFacts IntFacts MatchFacts.

Lemma az_moves c : is_az c = true -> Ascii.eqb (to_upper c) c = false.
Proof. by_cases_of c. Qed.

Lemma upper_not_az c : is_az (to_upper c) = false.
Proof. by_cases_of c. Qed.

Lemma upper_classes c :
  is_digit (to_upper c) = is_digit c /\ is_space (to_upper c) = is_space c /\
  is_dot (to_upper c) = is_dot c.
Proof. by_cases_of c. Qed.

Lemma lower_upper_char c : to_lower (to_upper c) = to_lower c.
Proof. by_cases_of c. Qed.

Lemma zero_is_digit c : is_zero c = true -> is_digit c = true.
Proof. by_cases_of c. Qed.

Lemma map_app f a b : map f (a +:+ b) = map f a +:+ map f b.
Proof. induction a as [|c t IH]; simpl; [reflexivity | now rewrite IH]. Qed.

Lemma map_map_char f g h s :
  (forall c, f (g c) = h c) -> map f (map g s) = map h s.
Proof.
  intros H. induction s as [|c t IH]; simpl; [reflexivity|].
  now rewrite H, IH.
Qed.

Lemma take_while_map p f s :
  (forall c, p (f c) = p c) -> take_while p (map f s) = map f (take_while p s).
Proof.
  intros H. induction s as [|c t IH]; simpl; [reflexivity|].
  rewrite H. destruct (p c); simpl; [now rewrite IH | reflexivity].
Qed.

Lemma drop_while_map p f s :
  (forall c, p (f c) = p c) -> drop_while p (map f s) = map f (drop_while p s).
Proof.
  intros H. induction s as [|c t IH]; simpl; [reflexivity|].
  rewrite H. destruct (p c); simpl; [exact IH | reflexivity].
Qed.

Lemma upper_digits ds : all is_digit ds = true -> upper ds = ds.
Proof.
  intros H. apply map_fixed. revert H. apply all_impl. intros c Hc.
  destruct (digit_plain c Hc) as (-> & _). apply Ascii.eqb_refl.
Qed.

Lemma upper_idem s : upper (upper s) = upper s.
Proof. apply map_fixed, map_idem, to_upper_idem. Qed.

Lemma upper_fixed_no_az s : upper s = s -> none is_az s = true.
Proof.
  unfold none. induction s as [|c t IH]; simpl; [reflexivity|].
  intros [= Hc Ht]. rewrite (IH Ht), andb_true_r.
  destruct (is_az c) eqn:Haz; [|reflexivity].
  apply az_moves in Haz. rewrite Hc, Ascii.eqb_refl in Haz. discriminate.
Qed.

Lemma length_app a b :
  String.length (a +:+ b) = (String.length a + String.length b)%nat.
Proof. induction a as [|c t IH]; simpl; [reflexivity | now rewrite IH]. Qed.

Lemma length_map f s : String.length (map f s) = String.length s.
Proof. induction s as [|c t IH]; simpl; [reflexivity | now rewrite IH]. Qed.

Lemma length_take n s : (String.length (take n s) <= n)%nat.
Proof.
  revert s. induction n as [|n IH]; intros [|c t]; simpl; try lia.
  specialize (IH t). lia.
Qed.

Lemma take_app n s t :
  (n <= String.length s)%nat -> take n (s +:+ t) = take n s.
Proof.
  revert s. induction n as [|n IH]; intros [|c s] H; simpl in *;
    try reflexivity; try lia.
  rewrite IH by lia. reflexivity.
Qed.

Lemma prefix_app k a b :
  String.prefix k a = true -> String.prefix k (a +:+ b) = true.
Proof.
  revert a. induction k as [|c k IH]; intros a;
    [intros _; now destruct (a +:+ b)|].
  destruct a as [|d a]; simpl; [discriminate|].
  destruct (ascii_dec c d); [apply IH | discriminate].
Qed.

Lemma contains_app_l k a b :
  contains k a = true -> contains k (a +:+ b) = true.
Proof.
  induction a as [|c a IH]; simpl.
  - rewrite orb_false_r. intros H.
    destruct k; [now destruct b | discriminate].
  - rewrite !orb_true_iff. intros [H|H].
    + left. exact (prefix_app k (String c a) b H).
    + right. now apply IH.
Qed.

Lemma contains_app_r k a b :
  contains k b = true -> contains k (a +:+ b) = true.
Proof.
  intros H. induction a as [|c a IH]; simpl; [exact H|].
  rewrite IH. apply orb_true_r.
Qed.

(** *** Parentheticals again *)

Lemma closes_sub_parens t :
  closes t = false -> closes (sub_parens_from false t) = false.
Proof.
  induction t as [|c t IH]; simpl; [reflexivity|].
  destruct (is_close c) eqn:Hc; [discriminate|].
  destruct (is_LF c) eqn:Hn.
  - intros _. apply Ascii.eqb_eq in Hn. subst c. reflexivity.
  - intros Ht. rewrite Ht, andb_false_r. simpl. rewrite Hc, Hn. now apply IH.
Qed.

Lemma unclosed_sub_parens_from b s : unclosed (sub_parens_from b s) = true.
Proof.
  revert b. induction s as [|c t IH]; intros b; simpl; [reflexivity|].
  destruct b; [apply IH|].
  destruct (is_open c) eqn:Ho; simpl.
  - destruct (closes t) eqn:Hcl; [apply IH|].
    simpl. rewrite Ho, (closes_sub_parens _ Hcl), IH. reflexivity.
  - rewrite Ho, IH. reflexivity.
Qed.

Lemma unclosed_fixed s : unclosed s = true -> sub_parens s = s.
Proof.
  unfold sub_parens. induction s as [|c t IH]; simpl; [reflexivity|].
  rewrite andb_true_iff. intros [Hc Ht].
  assert (Hk : is_open c && closes t = false).
  { destruct (is_open c); [|reflexivity]. simpl in *.
    now apply negb_true_iff in Hc. }
  now rewrite Hk, (IH Ht).
Qed.

(** *** Leading zeros again *)

Lemma drop_zeros_zeros zeros ds :
  all is_zero zeros = true -> ds <> "" ->
  drop_zeros (zeros +:+ ds) = drop_zeros ds.
Proof.
  intros Hz Hne. induction zeros as [|c t IH]; [reflexivity|].
  simpl in Hz. apply andb_true_iff in Hz as [Hc Ht].
  change (String c t +:+ ds) with (String c (t +:+ ds)).
  destruct (t +:+ ds) as [|c' r] eqn:Hr.
  - destruct t; [simpl in Hr; congruence | discriminate].
  - change (drop_zeros (String c (String c' r)))
      with (if is_zero c then drop_zeros (String c' r) else String c (String c' r)).
    rewrite Hc. now apply IH.
Qed.

(** *** The value of a run of digits *)

Lemma of_lu_bound d : (DecimalPos.Unsigned.of_lu d < 10 ^ N.of_nat (nb_digits d))%N.
Proof.
  induction d; cbn [nb_digits DecimalPos.Unsigned.of_lu];
    rewrite ?Nat2N.inj_succ, ?N.pow_succ_r'; simpl N.of_nat; try lia.
Qed.

Lemma nb_digits_string ds d :
  NilEmpty.uint_of_string ds = Some d -> nb_digits d = String.length ds.
Proof.
  intros H. apply NilEmpty.sus in H. subst ds.
  induction d; simpl; congruence.
Qed.

(** The value of a run of digits lies below ten to the length of the run. *)
Lemma int_value_bound ds :
  all is_digit ds = true -> ds <> "" ->
  (0 <= int_value ds < 10 ^ Z.of_nat (String.length ds))%Z.
Proof.
  intros Hds Hne. destruct (uint_of_digits ds Hds) as [d Hd].
  unfold int_value, NilZero.uint_of_string.
  destruct ds as [|c t] eqn:Heq; [congruence|]. rewrite <- Heq in *.
  rewrite Hd.
  - unfold Z.of_uint. rewrite DecimalPos.Unsigned.of_uint_alt.
    pose proof (of_lu_bound (Decimal.rev d)) as Hb.
    rewrite DecimalFacts.nb_digits_rev, (nb_digits_string _ _ Hd) in Hb.
    split; [apply N2Z.is_nonneg|].
    apply N2Z.inj_lt in Hb. rewrite N2Z.inj_pow, nat_N_Z in Hb. exact Hb.
Qed.

End MoreFacts.

(* ===================================================================== *)
(** ** The normalizer: further properties *)

Module NormalizerProps.
Import Char Str Re CharFacts StrFacts ReFacts IntFacts MatchFacts NormFacts
       MoreFacts.

Lemma digits_after_blanks_upper x :
  take_while is_digit (drop_while is_space (upper x)) =
  take_while is_digit (drop_while is_space x).
Proof.
  unfold upper.
  rewrite drop_while_map by (intros c; apply upper_classes).
  rewrite take_while_map by (intros c; apply upper_classes).
  apply upper_digits, take_while_all.
Qed.

(** Putting a text in capitals keeps a match of the special pattern. *)
Lemma maine_match_upper s ds :
  maine_match s = Some ds -> maine_match (upper s) = Some ds.
Proof.
  destruct s as [|a [|b [|c t]]]; try discriminate. simpl.
  destruct (Ascii.eqb a "L") eqn:Ha; [|discriminate].
  destruct (is_dot b) eqn:Hb; [|discriminate].
  destruct (Ascii.eqb c "D") eqn:Hc; [|discriminate]. simpl.
  apply Ascii.eqb_eq in Ha, Hc. apply dot_eq in Hb. subst a b c. simpl.
  destruct t as [|d u]; [discriminate|]. simpl map.
  destruct (upper_classes d) as (_ & _ & ->).
  destruct (is_dot d).
  - fold (upper u). now rewrite digits_after_blanks_upper.
  - change (String (to_upper d) (map to_upper u)) with (upper (String d u)).
    now rewrite digits_after_blanks_upper.
Qed.

Lemma take_while_stop p u c y :
  p c = false -> take_while p (u +:+ String c y) = take_while p u.
Proof.
  intros Hc. induction u as [|d u IH]; simpl; [now rewrite Hc|].
  destruct (p d); [now rewrite IH | reflexivity].
Qed.

Lemma digits_after_blanks_stop t c y :
  is_space c = false -> is_digit c = false ->
  take_while is_digit (drop_while is_space (t +:+ String c y)) =
  take_while is_digit (drop_while is_space t).
Proof.
  intros Hs Hd. induction t as [|d t IH]; simpl.
  - rewrite Hs. simpl. now rewrite Hd.
  - destruct (is_space d); [exact IH|].
    exact (take_while_stop is_digit (String d t) c y Hd).
Qed.

(** An opening parenthesis behind a text does not change whether the text
    takes the special case, nor the digits it reads. *)
Lemma maine_match_before_paren x y :
  maine_match (x +:+ String "(" y) = maine_match x.
Proof.
  destruct x as [|a [|b [|c t]]].
  - destruct y as [|b [|c t]]; reflexivity.
  - destruct y as [|c t]; simpl; [reflexivity|]. now rewrite andb_false_r.
  - simpl. now rewrite andb_false_r.
  - simpl. destruct (Ascii.eqb a "L" && is_dot b && Ascii.eqb c "D");
      [|reflexivity].
    destruct t as [|d u]; simpl; [reflexivity|].
    destruct (is_dot d).
    + now rewrite digits_after_blanks_stop.
    + change (String d (u +:+ String "(" y)) with (String d u +:+ String "(" y).
      now rewrite digits_after_blanks_stop.
Qed.

Lemma sub_parens_app before t :
  none is_open before = true ->
  sub_parens (before +:+ t) = before +:+ sub_parens t.
Proof.
  unfold none. induction before as [|c u IH]; simpl; [reflexivity|].
  rewrite andb_true_iff. intros [Hc Hu]. apply negb_true_iff in Hc.
  rewrite sub_parens_keep by now rewrite Hc. now rewrite IH.
Qed.

(** X1. A text that the normalizer returns has no period, no blank and
    no lower-case letter. *)
Theorem normalize_no_separators s out :
  normalize_bill_number (PyStr s) = Ok (PyStr out) ->
  none is_dot out = true /\ none is_space out = true /\
  none is_az out = true.
Proof.
  assert (Hset : forall t, settled t ->
    none is_dot t = true /\ none is_space t = true /\ none is_az t = true).
  { intros t (Hu & _ & Hd & Hs). auto using upper_fixed_no_az. }
  destruct (maine_match s) as [ds|] eqn:Hm.
  - destruct (within_cap ds) eqn:Hcap.
    + destruct (normalize_maine _ _ Hm Hcap) as (-> & _ & Hc).
      intros [= <-]. now apply Hset, canonical_settled.
    + now rewrite (normalize_maine_long _ _ Hm Hcap).
  - rewrite (normalize_general _ Hm). intros [= <-].
    unfold finish. destruct (bill_match (clean s)) as [[p d]|] eqn:Hb.
    + apply Hset, canonical_settled. now apply (bill_match_canonical (clean s)).
    + auto using clean_no_dot, clean_no_space, upper_fixed_no_az, clean_upper.
Qed.

Lemma normalize_no_separators_witness :
  none is_dot "HB229" = true /\ none is_space "HB229" = true /\
  none is_az "HB229" = true.
Proof.
  apply (normalize_no_separators "h.b. 229 (s.b. 1)"). vm_compute. reflexivity.
Defined.

(** X2. A text already in canonical form, capital letters followed by
    digits without a leading zero, is returned unchanged. *)
Theorem canonical_unchanged s :
  canonical s -> normalize_bill_number (PyStr s) = Ok (PyStr s).
Proof. apply normalize_canonical. Qed.

Lemma canonical_unchanged_witness :
  normalize_bill_number (PyStr "HCR2042") = Ok (PyStr "HCR2042").
Proof.
  apply canonical_unchanged. exists "HCR", "2042".
  repeat split; (reflexivity || discriminate).
Defined.

(** X3. A text that the normalizer returns is in canonical form exactly
    when the cleaned text begins with capital letters followed by a
    digit. *)
Theorem normalize_canonical_iff s out :
  all is_ascii s = true ->
  normalize_bill_number (PyStr s) = Ok (PyStr out) ->
  (canonical out <-> is_Some (bill_match (clean s))).
Proof.
  intros _.
  destruct (maine_match s) as [ds|] eqn:Hm.
  - destruct (within_cap ds) eqn:Hcap.
    + destruct (normalize_maine _ _ Hm Hcap) as (-> & _ & Hc).
      intros [= <-]. split; [|now intros _].
      intros _. eapply bill_match_some_iff, maine_match_clean, Hm.
    + now rewrite (normalize_maine_long _ _ Hm Hcap).
  - rewrite (normalize_general _ Hm). intros [= <-].
    unfold finish. destruct (bill_match (clean s)) as [[p d]|] eqn:Hb.
    + split; [eauto|]. intros _. now apply (bill_match_canonical (clean s)).
    + split; [|intros [? ?]; discriminate].
      intros (L & D & HLD & HL & HLa & HD & HDa & _).
      assert (Hl : letters_then_digits (clean s)).
      { exists L, D, "". now rewrite append_empty_r. }
      apply bill_match_some_iff in Hl. now rewrite Hb in Hl.
Qed.

Lemma normalize_canonical_iff_witness :
  canonical "SB9" <-> is_Some (bill_match (clean "S.B. 0009 (enrolled)")).
Proof.
  apply normalize_canonical_iff; vm_compute; reflexivity.
Defined.

(** X4. Zeros put in front of the number do not change the result:
    letters, zeros and digits normalize as the letters and digits alone. *)
Theorem normalize_leading_zeros letters zeros digits :
  is_empty letters = false -> all is_AZ letters = true ->
  all is_zero zeros = true ->
  is_empty digits = false -> all is_digit digits = true ->
  normalize_bill_number (PyStr (letters +:+ zeros +:+ digits)) =
  normalize_bill_number (PyStr (letters +:+ digits)).
Proof.
  intros HL HLa HZ HD HDa. apply is_empty_false_inv in HL, HD.
  assert (HZd : all is_digit zeros = true).
  { revert HZ. apply all_impl, zero_is_digit. }
  assert (HZD : all is_digit (zeros +:+ digits) = true).
  { now rewrite all_app, HZd, HDa. }
  assert (HZDne : zeros +:+ digits <> "").
  { destruct zeros; simpl; congruence. }
  assert (Hgen : forall D, D <> "" -> all is_digit D = true ->
    normalize_bill_number (PyStr (letters +:+ D)) =
    Ok (PyStr (letters +:+ drop_zeros D))).
  { intros D HDne HDd.
    pose proof (plain_settled _ (plain_chars _ _ HLa HDd)) as Hs.
    rewrite (normalize_settled _ Hs). unfold finish.
    rewrite <- (append_empty_r D) at 1.
    rewrite bill_match_app by assumption. simpl. rewrite append_empty_r.
    rewrite strip_fixed; [reflexivity|].
    apply settled_no_space, plain_settled, plain_chars;
      auto using drop_zeros_all. }
  rewrite (Hgen _ HZDne HZD), (Hgen _ HD HDa).
  now rewrite drop_zeros_zeros.
Qed.

Lemma normalize_leading_zeros_witness :
  normalize_bill_number (PyStr ("SB" +:+ "000" +:+ "90")) =
  normalize_bill_number (PyStr ("SB" +:+ "90")).
Proof. apply normalize_leading_zeros; reflexivity. Defined.

(** X5. Outside the special case the normalizer ignores case: when the
    text in capitals does not match the special pattern, the text and the
    text in capitals have the same result. *)
Theorem normalize_upper s :
  maine_match (upper s) = None ->
  normalize_bill_number (PyStr (upper s)) = normalize_bill_number (PyStr s).
Proof.
  intros Hu.
  assert (Hm : maine_match s = None).
  { destruct (maine_match s) as [ds|] eqn:Hm; [|reflexivity].
    apply maine_match_upper in Hm. congruence. }
  rewrite (normalize_general _ Hu), (normalize_general _ Hm).
  unfold clean. now rewrite upper_idem.
Qed.

Lemma normalize_upper_witness :
  normalize_bill_number (PyStr (upper "h.b. 0229 (s.b. 3)")) =
  normalize_bill_number (PyStr "h.b. 0229 (s.b. 3)").
Proof. apply normalize_upper. reflexivity. Defined.

(** X6. Removing the parentheticals leaves nothing to remove: a second
    removal changes nothing, on every text. *)
Theorem sub_parens_idempotent s : sub_parens (sub_parens s) = sub_parens s.
Proof. apply unclosed_fixed. apply unclosed_sub_parens_from. Qed.

(** X7. A parenthetical at the end of a text does not change the result:
    when the text before has no opening parenthesis and the parenthetical
    holds no closing parenthesis and no line feed, the text with it
    normalizes as the text without it. *)
Theorem normalize_trailing_parenthetical before body :
  none is_open before = true ->
  none is_close body = true -> none is_LF body = true ->
  normalize_bill_number (PyStr (before +:+ String "(" (body +:+ ")"))) =
  normalize_bill_number (PyStr before).
Proof.
  intros Ho Hc Hn.
  assert (Hclean : clean (before +:+ String "(" (body +:+ ")")) = clean before).
  { unfold clean, upper. rewrite map_app. simpl map. rewrite map_app.
    assert (Hou : none is_open (map to_upper before) = true).
    { unfold none. rewrite all_map; [exact Ho|]. intros c. by_cases_of c. }
    rewrite sub_parens_app by exact Hou.
    change (map to_upper ")") with (String ")" "").
    rewrite sub_parens_match.
    - change (sub_parens "") with "". rewrite append_empty_r.
      rewrite <- (append_empty_r (map to_upper before)) at 2.
      rewrite sub_parens_app by exact Hou.
      change (sub_parens "") with "". now rewrite append_empty_r.
    - unfold none. rewrite all_map; [exact Hc|]. intros c. by_cases_of c.
    - unfold none. rewrite all_map; [exact Hn|]. intros c. by_cases_of c. }
  unfold normalize_bill_number.
  now rewrite maine_match_before_paren, Hclean.
Qed.

Lemma normalize_trailing_parenthetical_witness :
  normalize_bill_number (PyStr ("H.B. 12 " +:+ String "(" ("S.B. 4" +:+ ")"))) =
  normalize_bill_number (PyStr "H.B. 12 ").
Proof. apply normalize_trailing_parenthetical; reflexivity. Defined.

(** X8. In the special case only the digits count: on [L.D], an
    optional period, blanks, a run of digits and a rest that does not begin
    with a digit, the result is [LD] followed by the integer value of the
    run, whatever the rest, when the run has at most 4300 digits; when it
    has more, the normalizer raises [ValueError]. *)
Theorem normalize_special_case (second_dot : bool) blanks ds rest :
  all is_space blanks = true ->
  is_empty ds = false -> all is_digit ds = true ->
  no_digit_first rest = true ->
  normalize_bill_number
    (PyStr ("L.D" +:+ (if second_dot then "." else "") +:+
            blanks +:+ ds +:+ rest)) =
  if within_cap ds then Ok (PyStr ("LD" +:+ decimal (int_value ds)))
  else Raise ValueError.
Proof.
  intros Hb Hne Hds Hr. apply is_empty_false_inv in Hne.
  pose proof (maine_match_shape second_dot blanks ds rest Hb Hne Hds Hr) as Hm.
  destruct (within_cap ds) eqn:Hcap.
  - destruct (normalize_maine _ _ Hm Hcap) as (-> & <- & _). reflexivity.
  - exact (normalize_maine_long _ _ Hm Hcap).
Qed.

Lemma normalize_special_case_witness :
  normalize_bill_number
    (PyStr ("L.D" +:+ "." +:+ "  " +:+ "0042" +:+ "-A (S.P. 7)")) =
  Ok (PyStr ("LD" +:+ decimal (int_value "0042"))).
Proof. apply (normalize_special_case true); reflexivity. Defined.

End NormalizerProps.

(* ===================================================================== *)
(** ** The year extractor: further properties *)

Module YearProps.
Import Char Str Re StrFacts IntFacts MoreFacts Year.

Lemma take_full n s :
  String.length (take n s) = n -> (n <= String.length s)%nat.
Proof.
  revert s. induction n as [|n IH]; intros [|c t]; simpl; try lia.
  intros [= H]. specialize (IH t H). lia.
Qed.

Lemma search_year_window s w :
  search_year s = Some w ->
  String.length w = 4%nat /\ all is_digit w = true /\
  (4 <= String.length s)%nat.
Proof.
  induction s as [|c t IH]; [discriminate|].
  rewrite search_year_cons. unfold four_digits_at. simpl drop.
  destruct (_ && _) eqn:Hw.
  - intros [= <-]. apply andb_true_iff in Hw as [Hl Hd].
    apply Nat.eqb_eq in Hl. repeat split; auto. now apply take_full.
  - intros H. destruct (IH H) as (? & ? & ?). repeat split; auto.
    simpl. lia.
Qed.

Lemma search_year_app s t w :
  search_year s = Some w -> search_year (s +:+ t) = Some w.
Proof.
  induction s as [|c s IH]; [discriminate|].
  change (String c s +:+ t) with (String c (s +:+ t)).
  rewrite !search_year_cons. unfold four_digits_at. simpl drop.
  change (String c (s +:+ t)) with (String c s +:+ t).
  destruct (_ && _) eqn:Hw at 1.
  - intros [= <-]. apply andb_true_iff in Hw as [Hl Hd].
    apply Nat.eqb_eq in Hl. rewrite (take_app 4 (String c s) t).
    + now rewrite Hl, Hd.
    + now apply take_full.
  - intros H. destruct (search_year_window _ _ H) as (_ & _ & Hlen).
    rewrite (take_app 4 (String c s) t) by (simpl; lia).
    rewrite Hw. now apply IH.
Qed.

Lemma year_in_range v :
  exists n, extract_year v = Ok n /\ (0 <= n <= 9999)%Z.
Proof.
  destruct v as [| |s]; simpl; [exists 2025%Z; split; [reflexivity | unfold FALLBACK_YEAR; lia] ..|].
  destruct (search_year s) as [w|] eqn:Hw.
  - destruct (search_year_window _ _ Hw) as (Hl & Hd & _).
    assert (Hne : w <> "") by (destruct w; [discriminate | congruence]).
    destruct (search_year_digits _ _ Hw) as (_ & _ & Hcap).
    rewrite (py_int_digits w Hd Hne Hcap).
    pose proof (int_value_bound w Hd Hne) as Hn.
    eexists. split; [reflexivity|]. rewrite Hl in Hn.
    change (10 ^ Z.of_nat 4)%Z with 10000%Z in Hn. lia.
  - exists 2025%Z. split; [reflexivity | lia].
Qed.

(** X9. On every value the extractor returns a year and raises nothing,
    and the year lies between 0 and 9999. *)
Theorem extract_year_range v :
  exists n, extract_year v = Ok n /\ (0 <= n <= 9999)%Z.
Proof. apply year_in_range. Qed.

(** X10. What stands behind the first four consecutive digits is never
    read: when a text has four consecutive digits, adding any text behind
    it leaves the year unchanged. *)
Theorem extract_year_suffix s t w :
  search_year s = Some w ->
  extract_year (PyStr (s +:+ t)) = extract_year (PyStr s).
Proof.
  intros Hw. simpl. now rewrite (search_year_app s t w Hw), Hw.
Qed.

Lemma extract_year_suffix_witness :
  extract_year (PyStr ("03/02/2024" +:+ " (amended 2025)")) =
  extract_year (PyStr "03/02/2024").
Proof. apply (extract_year_suffix _ _ "2024"). reflexivity. Defined.

End YearProps.

(* ===================================================================== *)
(** ** The issue categorizer: further properties *)

Module CategorizerProps.
Import Char Str StrFacts MoreFacts Categorizer.

Lemma lower_upper s : lower (upper s) = lower s.
Proof. apply map_map_char, lower_upper_char. Qed.

Lemma no_group_other keys : ~ In (keys, "other") keyword_groups.
Proof.
  simpl. intros H.
  repeat (destruct H as [H|H]; [discriminate H|]). exact H.
Qed.

Lemma group_label keys c :
  In (keys, c) keyword_groups -> In c CATEGORY_LABELS.
Proof.
  simpl. intros H.
  repeat (destruct H as [H|H]; [injection H as _ <-; tauto|]). destruct H.
Qed.

(** The result on a text, by cases on whether a group matches. *)
Lemma categorize_cases s :
  (categorize_issues (PyStr s) = Ok {[ "other" ]} /\
   forall c, ~ matched (lower s) c) \/
  (exists categories : gset string,
     categorize_issues (PyStr s) = Ok categories /\ categories <> ∅ /\
     forall c, c ∈ categories <-> matched (lower s) c).
Proof.
  rewrite categorize_text. cbv zeta.
  destruct (decide (fold_left (step (lower s)) keyword_groups
                      (∅ : gset string) = ∅)) as [He|Hne].
  - left. split; [reflexivity|]. intros c Hc.
    apply elem_of_steps_matched in Hc. rewrite He in Hc.
    exact (not_elem_of_empty c Hc).
  - right. eexists. split; [reflexivity|]. split; [exact Hne|].
    intros c. apply elem_of_steps_matched.
Qed.

Lemma categorize_nonempty v :
  exists categories : gset string,
    categorize_issues v = Ok categories /\ categories <> ∅.
Proof.
  destruct v as [| |s];
    [eexists; split; [reflexivity | apply non_empty_singleton_L] ..|].
  destruct (categorize_cases s) as [[-> _]|(cs & -> & Hne & _)].
  - eexists; split; [reflexivity | apply non_empty_singleton_L].
  - eauto.
Qed.

(** X11. On ASCII text the categorizer ignores case: a text of ASCII
    characters and the same text in capitals get the same categories. *)
Theorem categorize_case_insensitive s :
  all is_ascii s = true ->
  categorize_issues (PyStr (upper s)) = categorize_issues (PyStr s).
Proof. intros _. rewrite !categorize_text. now rewrite lower_upper. Qed.

Lemma categorize_case_insensitive_witness :
  categorize_issues (PyStr (upper "Drag bans; Student IDs")) =
  categorize_issues (PyStr "Drag bans; Student IDs").
Proof. apply categorize_case_insensitive. reflexivity. Defined.

(** X12. The label [other] never stands beside another category: it is in
    the result exactly when the result is [{other}]. *)
Theorem categorize_other_alone v :
  exists categories : gset string,
    categorize_issues v = Ok categories /\
    ("other" ∈ categories <-> categories = {[ "other" ]}).
Proof.
  assert (Hone : ("other" : string) ∈ ({[ "other" ]} : gset string) <->
                 ({[ "other" ]} : gset string) = {[ "other" ]}).
  { split; [reflexivity | intros _; now apply elem_of_singleton]. }
  destruct v as [| |s]; [eexists; split; [reflexivity | exact Hone] ..|].
  destruct (categorize_cases s) as [[-> _]|(cs & -> & _ & Hcs)].
  - eexists; split; [reflexivity | exact Hone].
  - exists cs. split; [reflexivity|]. split.
    + intros Ho. apply Hcs in Ho as (keys & Hin & _).
      now destruct (no_group_other keys).
    + intros ->. now apply elem_of_singleton.
Qed.

(** X13. Every label of the result is one of the ten category labels. *)
Theorem categorize_known_labels v :
  exists categories : gset string,
    categorize_issues v = Ok categories /\
    forall c, c ∈ categories -> In c CATEGORY_LABELS.
Proof.
  assert (Hone : forall c : string,
    c ∈ ({[ "other" ]} : gset string) -> In c CATEGORY_LABELS).
  { intros c Hc. apply elem_of_singleton in Hc. subst c. simpl. tauto. }
  destruct v as [| |s]; [eexists; split; [reflexivity | exact Hone] ..|].
  destruct (categorize_cases s) as [[-> _]|(cs & -> & _ & Hcs)].
  - eexists; split; [reflexivity | exact Hone].
  - exists cs. split; [reflexivity|]. intros c Hc.
    apply Hcs in Hc as (keys & Hin & _). exact (group_label keys c Hin).
Qed.

(** X14. Text around a matching piece never removes its category: when a
    piece of text matches a category, every text that contains the piece
    has that category in its result. *)
Theorem categorize_monotone before piece after c :
  matched (lower piece) c ->
  exists categories : gset string,
    categorize_issues (PyStr (before +:+ piece +:+ after)) = Ok categories /\
    c ∈ categories.
Proof.
  intros (keys & Hin & k & Hk & Hc).
  assert (Hm : matched (lower (before +:+ piece +:+ after)) c).
  { exists keys. split; [exact Hin|]. exists k. split; [exact Hk|].
    unfold lower. rewrite !map_app.
    now apply contains_app_r, contains_app_l. }
  destruct (categorize_cases (before +:+ piece +:+ after))
    as [[_ Hno]|(cs & -> & _ & Hcs)].
  - now destruct (Hno c).
  - exists cs. split; [reflexivity | now apply Hcs].
Qed.

Lemma categorize_monotone_witness :
  exists categories : gset string,
    categorize_issues (PyStr ("Youth " +:+ "Sports" +:+ " bans")) = Ok categories /\
    "sports" ∈ categories.
Proof.
  apply categorize_monotone. exists ["sports"]. split; [simpl; tauto|].
  exists "sports". split; [simpl; tauto | reflexivity].
Defined.

End CategorizerProps.

(* ===================================================================== *)
(** ** The state table: further properties *)

Module StateProps.
Import Char Str CharFacts StrFacts MoreFacts.

Lemma STATE_ABBREV_In name code :
  STATE_ABBREV !! name = Some code -> In (name, code) STATE_ABBREV_items.
Proof.
  intros H. apply list_elem_of_In.
  exact (elem_of_list_to_map_2 STATE_ABBREV_items name code H).
Qed.

Lemma items_two_capitals name code :
  In (name, code) STATE_ABBREV_items ->
  String.length code = 2%nat /\ all is_AZ code = true.
Proof.
  simpl. intros H.
  repeat (destruct H as [H|H];
          [injection H as _ <-; split; reflexivity|]).
  destruct H.
Qed.

Lemma snd_injective {A B} (l : list (A * B)) a b x :
  NoDup (List.map snd l) -> In (a, x) l -> In (b, x) l -> a = b.
Proof.
  induction l as [|[k v] l IH]; simpl; [tauto|].
  intros Hnd. apply NoDup_cons in Hnd as [Hv Hnd].
  assert (Hin : forall y, In (y, v) l -> v ∈ List.map snd l).
  { intros y Hy. apply list_elem_of_In, in_map_iff. now exists (y, v). }
  intros [Ha|Ha] [Hb|Hb].
  - congruence.
  - injection Ha as _ <-. now destruct (Hv (Hin b Hb)).
  - injection Hb as _ <-. now destruct (Hv (Hin a Ha)).
  - now apply IH.
Qed.

Lemma codes_distinct : NoDup (List.map snd STATE_ABBREV_items).
Proof. apply (bool_decide_unpack _). vm_compute. exact I. Qed.

Lemma upper_no_az s : none is_az (upper s) = true.
Proof.
  unfold none, upper. induction s as [|c t IH]; simpl; [reflexivity|].
  now rewrite upper_not_az, IH.
Qed.

Lemma AZ_not_az s : all is_AZ s = true -> none is_az s = true.
Proof. apply all_impl. intros c. by_cases_of c. Qed.

Lemma state_code_short s :
  exists code, state_abbrev (PyStr s) = Ok code /\
    (String.length code <= 2)%nat /\ none is_az code = true.
Proof.
  unfold state_abbrev. destruct (STATE_ABBREV !! s) as [code|] eqn:Hs.
  - exists code. split; [reflexivity|].
    destruct (items_two_capitals _ _ (STATE_ABBREV_In _ _ Hs)) as [Hl Ha].
    split; [lia | now apply AZ_not_az].
  - exists (upper (take 2 s)). split; [reflexivity|]. split.
    + unfold upper. rewrite length_map. apply length_take.
    + apply upper_no_az.
Qed.

(** X15. The state code of an ASCII text has at most two characters and
    no lower-case letter; for a name of the table it is exactly two capital
    letters. *)
Theorem state_abbrev_shape s :
  all is_ascii s = true ->
  exists code, state_abbrev (PyStr s) = Ok code /\
    (String.length code <= 2)%nat /\ none is_az code = true /\
    (STATE_ABBREV !! s = None \/
     String.length code = 2%nat /\ all is_AZ code = true).
Proof.
  intros _. destruct (state_code_short s) as (code & Hc & Hl & Ha).
  exists code. split; [exact Hc|]. split; [exact Hl|]. split; [exact Ha|].
  destruct (STATE_ABBREV !! s) as [x|] eqn:Hx; [right | now left].
  unfold state_abbrev in Hc. rewrite Hx in Hc. injection Hc as <-.
  exact (items_two_capitals _ _ (STATE_ABBREV_In _ _ Hx)).
Qed.

Lemma state_abbrev_shape_witness :
  exists code, state_abbrev (PyStr "puerto rico") = Ok code /\
    (String.length code <= 2)%nat /\ none is_az code = true /\
    (STATE_ABBREV !! "puerto rico" = None \/
     String.length code = 2%nat /\ all is_AZ code = true).
Proof. apply state_abbrev_shape. reflexivity. Defined.

(** X16. No two names of the table share a code. *)
Theorem state_codes_injective a b code :
  STATE_ABBREV !! a = Some code -> STATE_ABBREV !! b = Some code -> a = b.
Proof.
  intros Ha Hb.
  exact (snd_injective _ a b code codes_distinct
           (STATE_ABBREV_In _ _ Ha) (STATE_ABBREV_In _ _ Hb)).
Qed.

Lemma state_codes_injective_witness : "Maine" = "Maine".
Proof.
  apply (state_codes_injective "Maine" "Maine" "ME"); vm_compute; reflexivity.
Defined.

End StateProps.

(* ===================================================================== *)
(** ** The pipeline: further properties *)

Module PipelineProps.
Import Str Pipeline.



(** A row that passes the filter yields a record that is in order. *)
Lemma build_record_ok r rec :
  keep_row r = true -> build_record r = Ok rec -> record_ok rec.
Proof.
  intros Hk. unfold keep_row in Hk.
  destruct (State r) as [| |s] eqn:Hs; try discriminate.
  apply negb_true_iff in Hk.
  unfold build_record. rewrite Hs.
  destruct (normalize_bill_number (Bill_Name r)) as [b|] eqn:Hb;
    [|discriminate].
  destruct (state_abbrev (PyStr s)) as [code|]; [|discriminate].
  destruct (YearProps.year_in_range (Status_Date r)) as (y & -> & Hy).
  destruct (CategorizerProps.categorize_nonempty (Issues r)) as (cs & -> & Hcs).
  cbv beta iota delta [bind]. intros [= <-].
  unfold record_ok. cbn [state_full bill_number bill_number_raw year
                          issue_categories].
  split; [eauto|]. split; [exact (NormFacts.normalize_isna _ _ Hb)|].
  split; [lia | exact Hcs].
Qed.





(** X19. Every record of an output is in order: its state name is a text
    without the footer marker, its bill number is missing exactly when the
    raw bill name is, its year lies between 0 and 9999, and it has at
    least one category. *)
Theorem records_in_order df records :
  build_classification_dict df = Ok records ->
  Forall record_ok records.
Proof.
  intros H. destruct (build_output _ _ H) as [_ Hall]. clear H.
  pose proof (filter_kept df) as Hk.
  induction Hall as [|r rec rows recs Hr _ IH]; [constructor|].
  constructor.
  - inversion Hk; subst. now apply (build_record_ok r).
  - apply IH. now inversion Hk.
Qed.

Lemma records_in_order_witness :
  exists records,
    build_classification_dict sample_frame = Ok records /\
    Forall record_ok records.
Proof.
  destruct (Pipeline.build_accepted sample_frame) as [records H];
    [vm_compute; reflexivity|].
  exists records. split; [exact H | exact (records_in_order _ _ H)].
Defined.



End PipelineProps.
